(** * GoFirewall: the endpoint-selective HTTP firewall of [firewall/firewall.go]

    A shallow embedding of package [firewall] and of the parts of Go's
    standard packages [strings], [net], [net/http], [fmt] and [log] that it
    calls, followed by the properties of the rule table, of the
    authorization decision and of the handler wrapper.

    Conventions.
    - A Go [byte] is a [Z] in [0, 255]; bit operations are [Z.land].
    - A Go [string] is a [string]; a byte of it is an [ascii].
    - A slice whose nil-ness the code observes ([net.IP]) is an
      [option (list _)], [None] being the nil slice; other slices are lists.
    - A Go map is an [option (gmap _ _)], [None] being the nil map: reading
      a nil map finds nothing, assigning into it panics.
    - A function that can panic returns an [outcome]. *)

From Stdlib Require Import ZArith List String Ascii Bool Lia.
From stdpp Require Import base option list gmap strings.

Local Open Scope Z_scope.

(** ** Strings as Go sees them *)

Module strings.

(** [s[n:]] for [n <= len(s)]. *)
Fixpoint from (n : nat) (s : string) : string :=
  match n, s with
  | O, _ => s
  | S n', String _ s' => from n' s'
  | S _, EmptyString => EmptyString
  end.

(** [strings.IndexByte(s, c) >= 0] *)
Fixpoint Contains (c : ascii) (s : string) : bool :=
  match s with
  | EmptyString => false
  | String a s' => if Ascii.eqb a c then true else Contains c s'
  end.

(** [strings.Split(s, sep)] for a separator [sep] of one byte: the
    substrings of [s] between the occurrences of [sep].  The result always
    has at least one element. *)
Fixpoint Split (s : string) (sep : ascii) : list string :=
  match s with
  | EmptyString => [EmptyString]
  | String a s' =>
      if Ascii.eqb a sep then EmptyString :: Split s' sep
      else match Split s' sep with
           | x :: xs => String a x :: xs
           | [] => [String a EmptyString]
           end
  end.

(** [len(s) > 0 && s[0] == c] *)
Definition startsWith (c : ascii) (s : string) : bool :=
  match s with
  | String a _ => Ascii.eqb a c
  | EmptyString => false
  end.

(** [l[0]]; the index is in range for every result of [Split]. *)
Definition first (l : list string) : string := hd EmptyString l.

End strings.

(** ** Package [net]: addresses, masks, networks and their text forms

    The functions follow the package's sources: [ip.go] and [parse.go]. *)

Module net.

Definition IPv4len : nat := 4.
Definition IPv6len : nat := 16.

(** [type IP []byte]; [None] is the nil slice. *)
Definition IP : Type := option (list Z).

(** [type IPMask []byte]; only its length and its bytes are ever read. *)
Definition IPMask : Type := list Z.

(** [type IPNet struct { IP IP; Mask IPMask }]; the fields carry the name
    of the struct, [IP] and [Mask] being taken by the type and the method. *)
Record IPNet : Type := mkIPNet { IPNet_IP : IP; IPNet_Mask : IPMask }.

Definition bytes (ip : IP) : list Z := default [] ip.
Definition len (ip : IP) : nat := length (bytes ip).

(** The value of a byte of a string. *)
Definition code (c : ascii) : Z := Z.of_N (N_of_ascii c).

Definition v4InV6Prefix : list Z := [0; 0; 0; 0; 0; 0; 0; 0; 0; 0; 255; 255].

(** [IPv4(a, b, c, d)]: the 16-byte form of the IPv4 address a.b.c.d. *)
Definition IPv4 (a b c d : Z) : IP := Some (v4InV6Prefix ++ [a; b; c; d]).

Definition isZeros (p : list Z) : bool := forallb (Z.eqb 0) p.
Definition allFF (b : list Z) : bool := forallb (Z.eqb 255) b.

(** [ip.To4()]: the 4-byte form of an IPv4 address, nil for anything else. *)
Definition To4 (ip : IP) : IP :=
  if Nat.eqb (len ip) IPv4len then ip
  else if Nat.eqb (len ip) IPv6len
          && isZeros (take 10 (bytes ip))
          && (nth 10 (bytes ip) 0 =? 255)
          && (nth 11 (bytes ip) 0 =? 255)
       then Some (take 4 (drop 12 (bytes ip)))
       else None.

(** [networkNumberAndMask(n)]; [(None, [])] is [nil, nil]. *)
Definition networkNumberAndMask (n : IPNet) : IP * IPMask :=
  let continue (ip : IP) : IP * IPMask :=
    let m := IPNet_Mask n in
    if Nat.eqb (length m) IPv4len then
      if negb (Nat.eqb (len ip) IPv4len) then (None, []) else (ip, m)
    else if Nat.eqb (length m) IPv6len then
      if Nat.eqb (len ip) IPv4len then (ip, drop 12 m) else (ip, m)
    else (None, [])
  in
  match To4 (IPNet_IP n) with
  | Some _ as ip => continue ip
  | None =>
      let ip := IPNet_IP n in
      if negb (Nat.eqb (len ip) IPv6len) then (None, []) else continue ip
  end.

(** [n.Contains(ip)]: whether the network includes the address. *)
Definition Contains (n : IPNet) (ip : IP) : bool :=
  let '(nn, m) := networkNumberAndMask n in
  let ip := match To4 ip with Some _ as x => x | None => ip end in
  let l := len ip in
  if negb (Nat.eqb l (len nn)) then false
  else forallb (fun i => Z.land (nth i (bytes nn) 0) (nth i m 0)
                         =? Z.land (nth i (bytes ip) 0) (nth i m 0))
               (seq 0 l).

(** [CIDRMask(ones, bits)]; the empty mask is nil. *)
Fixpoint CIDRMask_loop (l : nat) (n : Z) : IPMask :=
  match l with
  | O => []
  | S l' =>
      if n >=? 8 then 255 :: CIDRMask_loop l' (n - 8)
      else Z.lxor 255 (Z.shiftr 255 n) :: CIDRMask_loop l' 0
  end.

Definition CIDRMask (ones bits : Z) : IPMask :=
  if negb (bits =? 8 * Z.of_nat IPv4len) && negb (bits =? 8 * Z.of_nat IPv6len) then []
  else if (ones <? 0) || (ones >? bits) then []
  else CIDRMask_loop (Z.to_nat (bits / 8)) ones.

(** [ip.Mask(mask)] *)
Definition Mask (ip : IP) (mask : IPMask) : IP :=
  let mask :=
    if Nat.eqb (length mask) IPv6len && Nat.eqb (len ip) IPv4len && allFF (take 12 mask)
    then drop 12 mask else mask in
  let ip :=
    if Nat.eqb (length mask) IPv4len && Nat.eqb (len ip) IPv6len
       && bool_decide (take 12 (bytes ip) = v4InV6Prefix)
    then Some (drop 12 (bytes ip)) else ip in
  let n := len ip in
  if negb (Nat.eqb n (length mask)) then None
  else Some (map (fun i => Z.land (nth i (bytes ip) 0) (nth i mask 0)) (seq 0 n)).

(** *** Numbers in text ([parse.go]) *)

Definition big : Z := 16777215.

Definition isDigit (c : ascii) : bool := (code "0" <=? code c) && (code c <=? code "9").

(** [dtoi(s)]: the decimal number at the head of [s], the count of bytes
    it takes, and whether there is one (and it is below [big]). *)
Fixpoint dtoi_loop (s : string) (n : Z) (i : nat) : Z * nat * bool :=
  match s with
  | String c s' =>
      if isDigit c then
        let n := n * 10 + (code c - code "0") in
        if n >=? big then (big, i, false) else dtoi_loop s' n (S i)
      else if Nat.eqb i 0 then (0, O, false) else (n, i, true)
  | EmptyString => if Nat.eqb i 0 then (0, O, false) else (n, i, true)
  end.

Definition dtoi (s : string) : Z * nat * bool := dtoi_loop s 0 O.

(** The value of a hexadecimal digit, if [c] is one. *)
Definition hexValue (c : ascii) : option Z :=
  if (code "0" <=? code c) && (code c <=? code "9") then Some (code c - code "0")
  else if (code "a" <=? code c) && (code c <=? code "f") then Some (code c - code "a" + 10)
  else if (code "A" <=? code c) && (code c <=? code "F") then Some (code c - code "A" + 10)
  else None.

(** [xtoi(s)]: as [dtoi], in base 16. *)
Fixpoint xtoi_loop (s : string) (n : Z) (i : nat) : Z * nat * bool :=
  match s with
  | String c s' =>
      match hexValue c with
      | Some d =>
          let n := n * 16 + d in
          if n >=? big then (0, i, false) else xtoi_loop s' n (S i)
      | None => if Nat.eqb i 0 then (0, i, false) else (n, i, true)
      end
  | EmptyString => if Nat.eqb i 0 then (0, i, false) else (n, i, true)
  end.

Definition xtoi (s : string) : Z * nat * bool := xtoi_loop s 0 O.

(** *** Addresses in text ([ip.go]) *)

(** [parseIPv4(s)]: four decimal numbers of at most 255, without leading
    zeros, separated by dots.  [k] counts the numbers still to read and [p]
    holds the ones read. *)
Fixpoint parseIPv4_loop (k : nat) (s : string) (p : list Z) : option (list Z * string) :=
  match k with
  | O => Some (p, s)
  | S k' =>
      match s with
      | EmptyString => None
      | String c0 s0 =>
          let after_dot :=
            if Nat.eqb (length p) 0 then Some s
            else if Ascii.eqb c0 "." then Some s0 else None in
          match after_dot with
          | None => None
          | Some s =>
              let '(n, c, ok) := dtoi s in
              if negb ok || (n >? 255) then None
              else if Nat.ltb 1 c && strings.startsWith "0" s then None
                   else parseIPv4_loop k' (strings.from c s) (p ++ [n])
          end
      end
  end.

Definition parseIPv4 (s : string) : IP :=
  match parseIPv4_loop 4 s [] with
  | Some ([a; b; c; d], EmptyString) => IPv4 a b c d
  | _ => None
  end.

(** [parseIPv6(s)]: groups of hexadecimal digits separated by colons, at
    most one [::] standing for a run of zero groups, and possibly an IPv4
    address in the last four bytes.  [k] counts the groups that still fit
    (the loop runs while [i < IPv6len]); [ip] is the filled part
    [ip[0:i]] of the result, so [i] is its length; [ellipsis] is the
    position of the [::], or -1.  The result is the state at the end of
    the loop, or nil. *)
Fixpoint parseIPv6_loop (k : nat) (s : string) (ip : list Z) (ellipsis : Z)
  : option (list Z * Z * string) :=
  match k with
  | O => Some (ip, ellipsis, s)
  | S k' =>
      let i := Z.of_nat (length ip) in
      let '(n, c, ok) := xtoi s in
      if negb ok || (n >? 65535) then None
      else if strings.startsWith "." (strings.from c s) then
        if (ellipsis <? 0) && negb (i =? Z.of_nat IPv6len - Z.of_nat IPv4len) then None
        else if i + Z.of_nat IPv4len >? Z.of_nat IPv6len then None
        else match parseIPv4 s with
             | None => None
             | Some ip4 => Some (ip ++ drop 12 ip4, ellipsis, EmptyString)
             end
      else
        let ip := ip ++ [Z.shiftr n 8; Z.land n 255] in
        let i := i + 2 in
        let s := strings.from c s in
        match s with
        | EmptyString => Some (ip, ellipsis, s)
        | String c0 EmptyString => None
        | String c0 s =>
            if negb (Ascii.eqb c0 ":") then None
            else if strings.startsWith ":" s then
              if ellipsis >=? 0 then None
              else
                let ellipsis := i in
                let s := strings.from 1 s in
                match s with
                | EmptyString => Some (ip, ellipsis, s)
                | _ => parseIPv6_loop k' s ip ellipsis
                end
            else parseIPv6_loop k' s ip ellipsis
        end
  end.

Definition parseIPv6 (s : string) : IP :=
  let leading := strings.startsWith ":" s && strings.startsWith ":" (strings.from 1 s) in
  let ellipsis := if leading then 0 else -1 in
  let s := if leading then strings.from 2 s else s in
  if leading && Nat.eqb (String.length s) 0 then Some (repeat 0 IPv6len)
  else
    match parseIPv6_loop 8 s [] ellipsis with
    | None => None
    | Some (ip, ellipsis, s) =>
        if negb (Nat.eqb (String.length s) 0) then None
        else if Nat.ltb (length ip) IPv6len then
          if ellipsis <? 0 then None
          else
            let e := Z.to_nat ellipsis in
            Some (take e ip ++ repeat 0 (IPv6len - length ip) ++ drop e ip)
        else if ellipsis >=? 0 then None
        else Some ip
    end.

(** [ParseIP(s)]: the first dot or colon of [s] decides which form is
    tried; a string without either is no address. *)
Fixpoint ParseIP_scan (s rest : string) : IP :=
  match rest with
  | EmptyString => None
  | String c rest' =>
      if Ascii.eqb c "." then parseIPv4 s
      else if Ascii.eqb c ":" then parseIPv6 s
      else ParseIP_scan s rest'
  end.

Definition ParseIP (s : string) : IP := ParseIP_scan s s.

(** [*ParseError] and its [Error] method. *)
Record ParseError : Type := mkParseError { Type_ : string; Text : string }.

Definition ParseError_Error (e : ParseError) : string :=
  "invalid " +:+ Type_ e +:+ ": " +:+ Text e.

(** [s[:i], s[i+1:]] for the first index [i] of the byte [c] in [s]. *)
Fixpoint cut (s : string) (c : ascii) : option (string * string) :=
  match s with
  | EmptyString => None
  | String a s' =>
      if Ascii.eqb a c then Some (EmptyString, s')
      else match cut s' c with
           | Some (l, r) => Some (String a l, r)
           | None => None
           end
  end.

(** [ParseCIDR(s)]: the address and the network of "a.b.c.d/n" or of
    its IPv6 form, or a [ParseError] naming [s]. *)
Definition ParseCIDR (s : string) : ParseError + (IP * IPNet) :=
  let fail := inl (mkParseError "CIDR address" s) in
  match cut s "/" with
  | None => fail
  | Some (addr, mask) =>
      let '(iplen, ip) :=
        match parseIPv4 addr with
        | Some _ as ip => (IPv4len, ip)
        | None => (IPv6len, parseIPv6 addr)
        end in
      let '(n, i, ok) := dtoi mask in
      match ip with
      | None => fail
      | Some _ =>
          if negb ok || negb (Nat.eqb i (String.length mask))
             || (n <? 0) || (n >? 8 * Z.of_nat iplen)
          then fail
          else
            let m := CIDRMask n (8 * Z.of_nat iplen) in
            inr (ip, mkIPNet (Mask ip m) m)
      end
  end.

(** *** [ip.String()] *)

Definition digit (d : Z) : ascii := ascii_of_N (Z.to_N (code "0" + d)).

(** [ubtoa]: a byte in decimal. *)
Definition ubtoa (v : Z) : string :=
  if v <? 10 then String (digit v) EmptyString
  else if v <? 100 then String (digit (v / 10)) (String (digit (v mod 10)) EmptyString)
  else String (digit (v / 100))
         (String (digit ((v / 10) mod 10)) (String (digit (v mod 10)) EmptyString)).

Definition hexDigit (v : Z) : ascii :=
  nth (Z.to_nat v) (list_ascii_of_string "0123456789abcdef") "0"%char.

(** [appendHex]: a number in hexadecimal, without leading zeros. *)
Definition appendHex (i : Z) : string :=
  if i =? 0 then "0"
  else
    string_of_list_ascii
      (flat_map (fun j => let v := Z.shiftr i (Z.of_nat j * 4) in
                          if v >? 0 then [hexDigit (Z.land v 15)] else [])
                [7; 6; 5; 4; 3; 2; 1; 0]%nat).

(** [hexString]: two hexadecimal digits a byte. *)
Definition hexString (b : list Z) : string :=
  string_of_list_ascii
    (flat_map (fun tn => [hexDigit (Z.shiftr tn 4); hexDigit (Z.land tn 15)]) b).

(** The eight 16-bit groups [p[i] << 8 | p[i+1]] of a 16-byte address. *)
Fixpoint groups (p : list Z) : list Z :=
  match p with
  | hi :: lo :: p' => Z.lor (Z.shiftl hi 8) lo :: groups p'
  | _ => []
  end.

Fixpoint zeroRun (gs : list Z) : nat :=
  match gs with
  | g :: gs' => if g =? 0 then S (zeroRun gs') else O
  | [] => O
  end.

(** The search for the longest run of zero groups: [i] is the byte index
    of the head of [gs], [skip] the count of groups the loop steps over
    after it has taken a run, [(e0, e1)] the best run so far. *)
Fixpoint longestZeros (gs : list Z) (i : Z) (skip : nat) (e0 e1 : Z) : Z * Z :=
  match gs with
  | [] => (e0, e1)
  | _ :: gs' =>
      match skip with
      | S skip' => longestZeros gs' (i + 2) skip' e0 e1
      | O =>
          let j := i + 2 * Z.of_nat (zeroRun gs) in
          if (j >? i) && (j - i >? e1 - e0)
          then longestZeros gs' (i + 2) (zeroRun gs) i j
          else longestZeros gs' (i + 2) O e0 e1
      end
  end.

Definition joinHex (gs : list Z) : string :=
  String.concat ":" (map appendHex gs).

(** The address in text: ["<nil>"] for an empty one, dotted decimal for
    IPv4, colon-separated groups with the longest run of zero groups
    written [::] for IPv6. *)
Definition IP_String (ip : IP) : string :=
  let p := bytes ip in
  if Nat.eqb (len ip) 0 then "<nil>"
  else
    match To4 ip with
    | Some [a; b; c; d] => ubtoa a +:+ "." +:+ ubtoa b +:+ "." +:+ ubtoa c +:+ "." +:+ ubtoa d
    | _ =>
        if negb (Nat.eqb (len ip) IPv6len) then "?" +:+ hexString p
        else
          let gs := groups p in
          let '(e0, e1) := longestZeros gs 0 O (-1) (-1) in
          if e1 - e0 <=? 2 then joinHex gs
          else joinHex (take (Z.to_nat (e0 / 2)) gs) +:+ "::"
               +:+ joinHex (drop (Z.to_nat (e1 / 2)) gs)
    end.

End net.

(** ** Package [net/http]: what the wrapper names *)

Module http.

Definition StatusForbidden : Z := 403.

(** [http.StatusText(code)]: the text of the codes the package knows, and
    the empty string for the others. *)
Definition StatusText (code : Z) : string :=
  match code with
  | 100 => "Continue"
  | 101 => "Switching Protocols"
  | 102 => "Processing"
  | 103 => "Early Hints"
  | 200 => "OK"
  | 201 => "Created"
  | 202 => "Accepted"
  | 203 => "Non-Authoritative Information"
  | 204 => "No Content"
  | 205 => "Reset Content"
  | 206 => "Partial Content"
  | 207 => "Multi-Status"
  | 208 => "Already Reported"
  | 226 => "IM Used"
  | 300 => "Multiple Choices"
  | 301 => "Moved Permanently"
  | 302 => "Found"
  | 303 => "See Other"
  | 304 => "Not Modified"
  | 305 => "Use Proxy"
  | 307 => "Temporary Redirect"
  | 308 => "Permanent Redirect"
  | 400 => "Bad Request"
  | 401 => "Unauthorized"
  | 402 => "Payment Required"
  | 403 => "Forbidden"
  | 404 => "Not Found"
  | 405 => "Method Not Allowed"
  | 406 => "Not Acceptable"
  | 407 => "Proxy Authentication Required"
  | 408 => "Request Timeout"
  | 409 => "Conflict"
  | 410 => "Gone"
  | 411 => "Length Required"
  | 412 => "Precondition Failed"
  | 413 => "Request Entity Too Large"
  | 414 => "Request URI Too Long"
  | 415 => "Unsupported Media Type"
  | 416 => "Requested Range Not Satisfiable"
  | 417 => "Expectation Failed"
  | 418 => "I'm a teapot"
  | 421 => "Misdirected Request"
  | 422 => "Unprocessable Entity"
  | 423 => "Locked"
  | 424 => "Failed Dependency"
  | 425 => "Too Early"
  | 426 => "Upgrade Required"
  | 428 => "Precondition Required"
  | 429 => "Too Many Requests"
  | 431 => "Request Header Fields Too Large"
  | 451 => "Unavailable For Legal Reasons"
  | 500 => "Internal Server Error"
  | 501 => "Not Implemented"
  | 502 => "Bad Gateway"
  | 503 => "Service Unavailable"
  | 504 => "Gateway Timeout"
  | 505 => "HTTP Version Not Supported"
  | 506 => "Variant Also Negotiates"
  | 507 => "Insufficient Storage"
  | 508 => "Loop Detected"
  | 510 => "Not Extended"
  | 511 => "Network Authentication Required"
  | _ => ""
  end.

(** [*url.URL], of which the wrapper reads the path. *)
Record URL : Type := mkURL { Path : string }.

(** [*http.Request], of which the wrapper reads the peer address and the
    URL. *)
Record Request : Type := mkRequest { RemoteAddr : string; Request_URL : URL }.

(** [http.ResponseWriter]: an interface value, known by the connection it
    answers. *)
Inductive ResponseWriter : Type := writer (conn : nat).

End http.

(** ** Go maps with string keys and panics *)

(** What a call does: it returns, or it panics with a message. *)
Inductive outcome (A : Type) : Type :=
| returns (a : A)
| panics (msg : string).
Arguments returns {A} a.
Arguments panics {A} msg.

Module gomap.

(** [v, ok := m[k]]: the zero value and [false] when [k] has no entry,
    and so for every key of the nil map. *)
Definition index {V : Type} (zero : V) (m : option (gmap string V)) (k : string) : V * bool :=
  match m with
  | Some g => match g !! k with
              | Some v => (v, true)
              | None => (zero, false)
              end
  | None => (zero, false)
  end.

(** [m[k] = v]: a panic on the nil map. *)
Definition assign {V : Type} (m : option (gmap string V)) (k : string) (v : V)
  : outcome (option (gmap string V)) :=
  match m with
  | Some g => returns (Some (<[k := v]> g))
  | None => panics "assignment to entry in nil map"
  end.

End gomap.

(** ** Package [firewall] *)

Module firewall.
Import net http.

(** The values of type [error] the package meets: those of [errors.New],
    those of [fmt.Errorf], each with its text. *)
Inductive error : Type :=
| errors_New (text : string)
| fmt_Errorf (text : string).

Definition Error (e : error) : string :=
  match e with
  | errors_New text => text
  | fmt_Errorf text => text
  end.

(** [type Rules struct] *)
Record Rules : Type := mkRules {
  PathToNetblocks : option (gmap string (list IPNet));
  FailOpen : bool
}.

(** [type Firewall struct]; the field [Rules] is [Firewall_Rules], the
    name [Rules] being the type's. *)
Record Firewall : Type := mkFirewall {
  Firewall_Rules : Rules;
  Log : bool
}.

Definition ErrPathHasRule : error :=
  errors_New "path already has an associated list of trusted netblocks".
Definition ErrCouldNotParseCIDR : error :=
  fmt_Errorf "could not parse CIDR".
Definition ErrCouldNotReadSrc : error :=
  errors_New "could not get source IP from http request".

(** [func New() *Firewall]: neither the map nor [Log] is set. *)
Definition New : Firewall :=
  mkFirewall (mkRules None false) false.

(** [func NewFirewall(rules, failOpen, log) *Firewall] *)
Definition NewFirewall (rules : option (gmap string (list IPNet))) (failOpen log : bool)
  : Firewall :=
  mkFirewall (mkRules rules failOpen) log.

(** The loop of [AddPathRule] over [networks]: the networks parsed so far
    are [trusted]; the first string that is no CIDR ends it with an error. *)
Fixpoint parseNetworks (networks : list string) (trusted : list IPNet)
  : error + list IPNet :=
  match networks with
  | [] => inr trusted
  | network :: networks' =>
      match ParseCIDR network with
      | inl err => inl (fmt_Errorf ("could not parse CIDR: " +:+ ParseError_Error err))
      | inr (_, trustedNetblock) => parseNetworks networks' (trusted ++ [trustedNetblock])
      end
  end.

(** [func (fw *Firewall) AddPathRule(path, networks) error]: the firewall
    after the call and what the call did; a returned [None] is the nil
    error. *)
Definition AddPathRule (fw : Firewall) (path : string) (networks : list string)
  : Firewall * outcome (option error) :=
  let '(_, exists_) := gomap.index [] (PathToNetblocks (Firewall_Rules fw)) path in
  if exists_ then (fw, returns (Some ErrPathHasRule))
  else
    match parseNetworks networks [] with
    | inl err => (fw, returns (Some err))
    | inr trusted =>
        match gomap.assign (PathToNetblocks (Firewall_Rules fw)) path trusted with
        | panics msg => (fw, panics msg)
        | returns m =>
            (mkFirewall (mkRules m (FailOpen (Firewall_Rules fw))) (Log fw), returns None)
        end
    end.

(** [func IPIsTrusted(trusted []net.IPNet, src net.IP) bool] *)
Fixpoint IPIsTrusted_loop (trusted : list IPNet) (src : IP) : bool :=
  match trusted with
  | [] => false
  | netblock :: trusted' =>
      if Contains netblock src then true else IPIsTrusted_loop trusted' src
  end.

Definition IPIsTrusted (trusted : list IPNet) (src : IP) : bool :=
  match src with
  | None => false
  | Some _ => IPIsTrusted_loop trusted src
  end.

(** What a handler does that can be seen from outside, in order: the
    lines it gives to [log.Println], its replies through [http.Error], and
    the header and the body it writes itself. *)
Inductive Event : Type :=
| log_Println (line : string)
| http_Error (w : ResponseWriter) (error : string) (code : Z)
| WriteHeader (w : ResponseWriter) (code : Z)
| Write (w : ResponseWriter) (data : string).

(** [func(http.ResponseWriter, *http.Request)] *)
Definition HandlerFunc : Type := ResponseWriter -> Request -> list Event.

(** The source address the wrapper reads from the request:
    [net.ParseIP(strings.Split(r.RemoteAddr, ":")[0])]. *)
Definition srcIP (r : Request) : IP :=
  ParseIP (strings.first (strings.Split (RemoteAddr r) ":")).

(** The decision of the wrapper for a path and a source address:
    [rule, hasRule := fw.Rules.PathToNetblocks[path]] and
    [(hasRule && IPIsTrusted(rule, srcIP)) || (fw.Rules.FailOpen)]. *)
Definition authorized (fw : Firewall) (path : string) (srcIP : IP) : bool :=
  let '(rule, hasRule) := gomap.index [] (PathToNetblocks (Firewall_Rules fw)) path in
  (hasRule && IPIsTrusted rule srcIP) || FailOpen (Firewall_Rules fw).

(** The line of a blocked request:
    [fmt.Sprintf("[FIREWALL] blocked request from %s for %s", srcIP.String(), path)]. *)
Definition blockedLine (srcIP : IP) (path : string) : string :=
  "[FIREWALL] blocked request from " +:+ IP_String srcIP +:+ " for " +:+ path.

(** [func (fw *Firewall) Wrap(h) http.Handler]: the handler that rejects
    what is not authorized and hands the rest to [h]. *)
Definition Wrap (fw : Firewall) (h : HandlerFunc) : HandlerFunc :=
  fun w r =>
    let srcIP := srcIP r in
    let authorized := authorized fw (Path (Request_URL r)) srcIP in
    if negb authorized then
      [ log_Println (blockedLine srcIP (Path (Request_URL r)));
        http_Error w (StatusText StatusForbidden) StatusForbidden ]
    else h w r.

End firewall.

(** ** The rule table as the specification sees it, and the scenarios *)

Module table.
Import net firewall.

(** The entry of a path in the rule table: its trusted networks, if the
    path is configured. *)
Definition entry (fw : Firewall) (path : string) : option (list IPNet) :=
  match PathToNetblocks (Firewall_Rules fw) with
  | Some g => g !! path
  | None => None
  end.

(** A string that [net.ParseCIDR] takes. *)
Definition wellFormed (network : string) : Prop :=
  exists r, ParseCIDR network = inr r.

(** A string that [net.ParseCIDR] refuses. *)
Definition malformed (network : string) : Prop :=
  exists e, ParseCIDR network = inl e.

(** A peer address in an IPv6 form: a bracketed host, as in
    ["[::1]:8080"], or text that [net] reads as an IPv6 address, as
    ["2001:db8::1"]. *)
Definition IPv6Form (addr : string) : Prop :=
  strings.startsWith "[" addr = true \/ is_Some (parseIPv6 addr).

(** What the wrapper does when it denies. *)
Definition rejection (w : http.ResponseWriter) (r : http.Request) : list Event :=
  [ log_Println (blockedLine (srcIP r) (http.Path (http.Request_URL r)));
    http_Error w "Forbidden" 403 ].

(** The values of a byte. *)
Definition inByte (b : Z) : Prop := 0 <= b <= 255.

End table.

Module scenario.
Import net http firewall.

(** The handler of the README. *)
Definition helloWorldHandler : HandlerFunc :=
  fun w _ => [WriteHeader w 200; Write w "Hello World!"].

(** 10.0.0.0/8 *)
Definition net10 : IPNet := mkIPNet (Some [10; 0; 0; 0]) [255; 0; 0; 0].

(** "/hello" trusts 10.0.0.0/8; nothing else is configured. *)
Definition helloRules : gmap string (list IPNet) := {[ "/hello" := [net10] ]}.

(** No path is configured. *)
Definition noRules : gmap string (list IPNet) := ∅.

(** "/admin" is configured and trusts nobody. *)
Definition adminRules : gmap string (list IPNet) := {[ "/admin" := [] ]}.

Definition request (remoteAddr path : string) : Request :=
  mkRequest remoteAddr (mkURL path).

(** The firewall of the scenarios, fail-closed and fail-open. *)
Definition failClosed : Firewall := NewFirewall (Some helloRules) false false.
Definition failOpen : Firewall := NewFirewall (Some helloRules) true false.

Definition w0 : ResponseWriter := writer 0.

End scenario.

Import net http firewall table.

(** ** Reading the rule table *)

Lemma index_entry fw path :
  gomap.index [] (PathToNetblocks (Firewall_Rules fw)) path
  = match entry fw path with
    | Some T => (T, true)
    | None => ([], false)
    end.
Proof.
  unfold entry, gomap.index.
  destruct (PathToNetblocks (Firewall_Rules fw)) as [g|]; [|reflexivity].
  now destruct (g !! path).
Qed.

(** ** The membership test *)

Section Membership.
Implicit Types (trusted : list IPNet) (src : IP).

Lemma IPIsTrusted_loop_existsb trusted src :
  IPIsTrusted_loop trusted src = existsb (fun netblock => Contains netblock src) trusted.
Proof.
  induction trusted as [|netblock trusted IH]; simpl; [reflexivity|].
  rewrite IH. now destruct (Contains netblock src).
Qed.

Lemma IPIsTrusted_loop_first trusted src :
  IPIsTrusted_loop trusted src = true ->
  exists before netblock after,
    trusted = before ++ netblock :: after
    /\ Forall (fun n => Contains n src = false) before
    /\ Contains netblock src = true.
Proof.
  induction trusted as [|n trusted IH]; simpl; [discriminate|].
  destruct (Contains n src) eqn:E; intros H.
  - exists [], n, trusted. auto.
  - destruct (IH H) as (before & netblock & after & -> & Hb & Hc).
    exists (n :: before), netblock, after. auto.
Qed.

Lemma IPIsTrusted_nil src : IPIsTrusted [] src = false.
Proof. now destruct src. Qed.

End Membership.

(** C8. [IPIsTrusted] answers false for the nil address whatever the list;
    for an address that is not nil it answers true exactly when some network
    of the list contains the address, the network that decides being the
    first such one in the order of the list; it answers false on the empty
    list. *)
Theorem IPIsTrusted_spec (trusted : list IPNet) :
  IPIsTrusted trusted None = false
  /\ forall b : list Z,
      (IPIsTrusted trusted (Some b) = true
       <-> exists netblock, In netblock trusted /\ Contains netblock (Some b) = true)
      /\ (IPIsTrusted trusted (Some b) = true
          <-> exists before netblock after,
                trusted = before ++ netblock :: after
                /\ Forall (fun n => Contains n (Some b) = false) before
                /\ Contains netblock (Some b) = true)
      /\ (IPIsTrusted trusted (Some b) = false
          <-> Forall (fun n => Contains n (Some b) = false) trusted)
      /\ IPIsTrusted [] (Some b) = false.
Proof.
  split; [reflexivity|]. intros b. simpl.
  repeat split.
  - rewrite IPIsTrusted_loop_existsb. intros H.
    apply existsb_exists in H. exact H.
  - intros H. rewrite IPIsTrusted_loop_existsb. apply existsb_exists. exact H.
  - apply IPIsTrusted_loop_first.
  - intros (before & netblock & after & -> & _ & Hc).
    rewrite IPIsTrusted_loop_existsb. apply existsb_exists.
    exists netblock. split; [|exact Hc]. apply in_or_app. right. now left.
  - rewrite IPIsTrusted_loop_existsb. intros H.
    apply List.Forall_forall. intros n Hn.
    destruct (Contains n (Some b)) eqn:E; [|reflexivity].
    assert (existsb (fun netblock => Contains netblock (Some b)) trusted = true) as X
      by (apply existsb_exists; eauto).
    congruence.
  - intros H. rewrite IPIsTrusted_loop_existsb.
    destruct (existsb _ trusted) eqn:E; [|reflexivity].
    apply existsb_exists in E. destruct E as (n & Hn & Hc).
    rewrite List.Forall_forall in H. rewrite (H n Hn) in Hc. discriminate.
Qed.

(** ** The decision *)

Section Decision.
Implicit Types (fw : Firewall) (path : string) (a : IP).

Lemma authorized_configured fw path a T :
  entry fw path = Some T ->
  authorized fw path a = IPIsTrusted T a || FailOpen (Firewall_Rules fw).
Proof. intros H. unfold authorized. rewrite index_entry, H. reflexivity. Qed.

Lemma authorized_not_configured fw path a :
  entry fw path = None ->
  authorized fw path a = FailOpen (Firewall_Rules fw).
Proof. intros H. unfold authorized. rewrite index_entry, H. reflexivity. Qed.

(** With [FailOpen] off, a configured path is decided by the membership
    test alone. *)
Lemma authorized_failClosed fw path a T :
  FailOpen (Firewall_Rules fw) = false ->
  entry fw path = Some T ->
  authorized fw path a = IPIsTrusted T a.
Proof.
  intros Hf H. rewrite (authorized_configured _ _ _ _ H), Hf.
  apply orb_false_r.
Qed.

(** With [FailOpen] on, every request is authorized. *)
Lemma authorized_failOpen fw path a :
  FailOpen (Firewall_Rules fw) = true -> authorized fw path a = true.
Proof.
  intros Hf. unfold authorized.
  destruct (gomap.index _ _ _) as [rule hasRule].
  rewrite Hf. apply orb_true_r.
Qed.

(** The nil address is authorized exactly when [FailOpen] is on. *)
Lemma authorized_absent fw path :
  authorized fw path None = FailOpen (Firewall_Rules fw).
Proof.
  unfold authorized. destruct (gomap.index _ _ _) as [rule hasRule].
  simpl. now rewrite andb_false_r.
Qed.

End Decision.

(** C5. For a path without an entry in the rule table the decision is the
    value of [FailOpen], whatever the source address. *)
Theorem authorized_unconfigured (fw : Firewall) (path : string) (a : IP)
  (Hnone : entry fw path = None) :
  authorized fw path a = FailOpen (Firewall_Rules fw)
  /\ forall a' : IP, authorized fw path a' = authorized fw path a.
Proof.
  split.
  - now apply authorized_not_configured.
  - intros a'. now rewrite !authorized_not_configured.
Qed.

Lemma authorized_unconfigured_witness :
  entry (NewFirewall (Some scenario.helloRules) true false) "/other" = None
  /\ authorized (NewFirewall (Some scenario.helloRules) true false) "/other"
       (ParseIP "203.0.113.5") = true.
Proof.
  split; [vm_compute; reflexivity|].
  apply (authorized_unconfigured
           (NewFirewall (Some scenario.helloRules) true false) "/other"
           (ParseIP "203.0.113.5")).
  vm_compute; reflexivity.
Defined.

(** C1 (the code departs from it). With [FailOpen] on, the decision is true
    for every path and every address, configured or not: for "/hello"
    trusting 10.0.0.0/8 the address 203.0.113.5, which no trusted network
    contains, is authorized and the inner handler runs. *)
Theorem failOpen_overrides_membership :
  (forall rules log path a, authorized (NewFirewall rules true log) path a = true)
  /\ let fw := NewFirewall (Some scenario.helloRules) true false in
     let r := scenario.request "203.0.113.5:40000" "/hello" in
     entry fw "/hello" = Some [scenario.net10]
     /\ srcIP r = IPv4 203 0 113 5
     /\ IPIsTrusted [scenario.net10] (srcIP r) = false
     /\ authorized fw "/hello" (srcIP r) = true
     /\ Wrap fw scenario.helloWorldHandler scenario.w0 r
        = scenario.helloWorldHandler scenario.w0 r.
Proof.
  split.
  - intros rules log path a. now apply authorized_failOpen.
  - vm_compute. repeat split; reflexivity.
Qed.

(** C4 (the code departs from it). A path configured with the empty list
    is denied to every address only while [FailOpen] is off; with [FailOpen]
    on, every address is authorized for it. *)
Theorem empty_list_failOpen :
  let fw := NewFirewall (Some scenario.adminRules) true false in
  entry fw "/admin" = Some []
  /\ (forall a, IPIsTrusted [] a = false)
  /\ (forall a, authorized fw "/admin" a = true)
  /\ Wrap fw scenario.helloWorldHandler scenario.w0
       (scenario.request "203.0.113.5:40000" "/admin")
     = scenario.helloWorldHandler scenario.w0
         (scenario.request "203.0.113.5:40000" "/admin").
Proof.
  simpl. split; [vm_compute; reflexivity|].
  split; [apply IPIsTrusted_nil|].
  split; [intros a; now apply authorized_failOpen|].
  vm_compute. reflexivity.
Qed.

(** With [FailOpen] off the empty list denies everyone. *)
Lemma empty_list_failClosed fw path a :
  FailOpen (Firewall_Rules fw) = false ->
  entry fw path = Some [] ->
  authorized fw path a = false.
Proof.
  intros Hf H. rewrite (authorized_failClosed _ _ _ _ Hf H). apply IPIsTrusted_nil.
Qed.

(** ** The wrapper *)

Section Wrapper.
Implicit Types (fw : Firewall) (h : HandlerFunc) (w : ResponseWriter) (r : Request).

Lemma Wrap_denied fw h w r :
  authorized fw (Path (Request_URL r)) (srcIP r) = false ->
  Wrap fw h w r = rejection w r.
Proof. intros H. unfold Wrap. rewrite H. reflexivity. Qed.

Lemma Wrap_authorized fw h w r :
  authorized fw (Path (Request_URL r)) (srcIP r) = true ->
  Wrap fw h w r = h w r.
Proof. intros H. unfold Wrap. rewrite H. reflexivity. Qed.

(** The wrapper never reads [Log]. *)
Lemma Wrap_ignores_Log rules log log' h w r :
  Wrap (mkFirewall rules log) h w r = Wrap (mkFirewall rules log') h w r.
Proof. reflexivity. Qed.

(** Every denial gives a line to [log.Println], whatever [Log] is. *)
Lemma denial_logged fw h w r :
  authorized fw (Path (Request_URL r)) (srcIP r) = false ->
  In (log_Println (blockedLine (srcIP r) (Path (Request_URL r)))) (Wrap fw h w r).
Proof. intros H. rewrite (Wrap_denied _ _ _ _ H). now left. Qed.

End Wrapper.

(** C9. A denied request is answered through [http.Error] with status 403
    and the text of that status, "Forbidden", after the line for the log;
    the answer is the same for every rule table and the inner handler has no
    part in it.  An authorized request is handed to the inner handler with
    the same writer and request, and nothing else is done. *)
Theorem Wrap_spec (fw : Firewall) (h : HandlerFunc) (w : ResponseWriter) (r : Request) :
  StatusForbidden = 403
  /\ StatusText StatusForbidden = "Forbidden"
  /\ (authorized fw (Path (Request_URL r)) (srcIP r) = false ->
      Wrap fw h w r
      = [ log_Println (blockedLine (srcIP r) (Path (Request_URL r)));
          http_Error w (StatusText StatusForbidden) StatusForbidden ]
      /\ (forall h' : HandlerFunc, Wrap fw h' w r = Wrap fw h w r)
      /\ (forall e, In e (Wrap fw h w r) ->
          e = log_Println (blockedLine (srcIP r) (Path (Request_URL r)))
          \/ e = http_Error w "Forbidden" 403))
  /\ (authorized fw (Path (Request_URL r)) (srcIP r) = true ->
      Wrap fw h w r = h w r).
Proof.
  split; [reflexivity|]. split; [reflexivity|]. split.
  - intros H. split; [now apply Wrap_denied|]. split.
    + intros h'. now rewrite !Wrap_denied.
    + intros e He. rewrite (Wrap_denied _ _ _ _ H) in He.
      destruct He as [<-|[<-|[]]]; auto.
  - apply Wrap_authorized.
Qed.

Lemma Wrap_spec_witness :
  Wrap (NewFirewall (Some scenario.helloRules) false false)
       scenario.helloWorldHandler scenario.w0
       (scenario.request "203.0.113.5:40000" "/hello")
  = [ log_Println "[FIREWALL] blocked request from 203.0.113.5 for /hello";
      http_Error scenario.w0 "Forbidden" 403 ]
  /\ Wrap (NewFirewall (Some scenario.helloRules) false false)
          scenario.helloWorldHandler scenario.w0
          (scenario.request "10.1.2.3:40000" "/hello")
     = [ WriteHeader scenario.w0 200; Write scenario.w0 "Hello World!" ].
Proof.
  split.
  - apply (Wrap_spec (NewFirewall (Some scenario.helloRules) false false)
             scenario.helloWorldHandler scenario.w0
             (scenario.request "203.0.113.5:40000" "/hello")).
    vm_compute; reflexivity.
  - apply (Wrap_spec (NewFirewall (Some scenario.helloRules) false false)
             scenario.helloWorldHandler scenario.w0
             (scenario.request "10.1.2.3:40000" "/hello")).
    vm_compute; reflexivity.
Defined.

(** C2 (the code departs from it). The line for the log is written at every
    denial, also when [Log] is false: the firewall of [New], whose [Log] is
    false, writes it for every request, and so does a firewall built by
    [NewFirewall] with [log] false. *)
Theorem denial_logged_with_Log_off :
  Log New = false
  /\ (forall h w r,
        Wrap New h w r
        = [ log_Println (blockedLine (srcIP r) (Path (Request_URL r)));
            http_Error w "Forbidden" 403 ])
  /\ Log (NewFirewall (Some scenario.helloRules) false false) = false
  /\ Wrap (NewFirewall (Some scenario.helloRules) false false)
          scenario.helloWorldHandler scenario.w0
          (scenario.request "203.0.113.5:40000" "/hello")
     = [ log_Println "[FIREWALL] blocked request from 203.0.113.5 for /hello";
         http_Error scenario.w0 "Forbidden" 403 ].
Proof.
  split; [reflexivity|]. split.
  - intros h w r. apply Wrap_denied. reflexivity.
  - split; [reflexivity|]. vm_compute. reflexivity.
Qed.

(** ** The rule table *)

Section RuleTable.
Implicit Types (fw : Firewall) (path network : string) (networks : list string)
  (trusted : list IPNet).

(** The error of [net.ParseCIDR] names the whole string it was given. *)
Lemma ParseCIDR_error network e :
  ParseCIDR network = inl e -> e = mkParseError "CIDR address" network.
Proof.
  unfold ParseCIDR. intros H.
  repeat match type of H with
         | context [match ?x with _ => _ end] => destruct x
         end; congruence.
Qed.

Lemma wellFormed_or_malformed network : wellFormed network \/ malformed network.
Proof.
  unfold wellFormed, malformed.
  destruct (ParseCIDR network) as [e|r]; eauto.
Qed.

Lemma wellFormed_not_malformed network : wellFormed network -> malformed network -> False.
Proof. intros [r Hr] [e He]. congruence. Qed.

Lemma parseNetworks_app before rest trusted :
  parseNetworks (before ++ rest) trusted
  = match parseNetworks before trusted with
    | inr t => parseNetworks rest t
    | inl e => inl e
    end.
Proof.
  revert trusted. induction before as [|network before IH]; intros trusted; simpl.
  - reflexivity.
  - destruct (ParseCIDR network) as [e|[ip netblock]]; [reflexivity|]. apply IH.
Qed.

Lemma parseNetworks_wellFormed networks trusted :
  Forall wellFormed networks ->
  exists parsed,
    parseNetworks networks trusted = inr (trusted ++ parsed)
    /\ length parsed = length networks.
Proof.
  intros H. revert trusted.
  induction H as [|network networks [[ip netblock] Hr] _ IH]; intros trusted; simpl.
  - exists []. now rewrite app_nil_r.
  - rewrite Hr. destruct (IH (trusted ++ [netblock])) as (parsed & -> & Hlen).
    exists (netblock :: parsed). rewrite <- app_assoc. simpl. auto.
Qed.

Lemma parseNetworks_malformed network rest trusted :
  malformed network ->
  parseNetworks (network :: rest) trusted
  = inl (fmt_Errorf ("could not parse CIDR: invalid CIDR address: " +:+ network)).
Proof.
  intros [e He]. simpl. rewrite He.
  now rewrite (ParseCIDR_error _ _ He).
Qed.

(** A list with a malformed string splits at the first one. *)
Lemma first_malformed networks :
  Exists malformed networks ->
  exists before bad after,
    networks = before ++ bad :: after /\ Forall wellFormed before /\ malformed bad.
Proof.
  induction networks as [|network networks IH]; intros H.
  - inversion H.
  - destruct (wellFormed_or_malformed network) as [Hw|Hm].
    + destruct IH as (before & bad & after & -> & Hb & Hbad).
      { inversion H; subst; [|assumption].
        exfalso. eauto using wellFormed_not_malformed. }
      exists (network :: before), bad, after. auto.
    + exists [], network, networks. auto.
Qed.

(** The three ways [AddPathRule] ends. *)
Lemma AddPathRule_has_rule fw path networks T :
  entry fw path = Some T ->
  AddPathRule fw path networks = (fw, returns (Some ErrPathHasRule)).
Proof. intros H. unfold AddPathRule. rewrite index_entry, H. reflexivity. Qed.

Lemma AddPathRule_parse_error fw path networks err :
  entry fw path = None ->
  parseNetworks networks [] = inl err ->
  AddPathRule fw path networks = (fw, returns (Some err)).
Proof.
  intros H Hp. unfold AddPathRule. rewrite index_entry, H, Hp. reflexivity.
Qed.

Lemma AddPathRule_parsed fw path networks trusted :
  entry fw path = None ->
  parseNetworks networks [] = inr trusted ->
  AddPathRule fw path networks
  = match PathToNetblocks (Firewall_Rules fw) with
    | Some g =>
        (mkFirewall (mkRules (Some (<[path := trusted]> g)) (FailOpen (Firewall_Rules fw)))
                    (Log fw),
         returns None)
    | None => (fw, panics "assignment to entry in nil map")
    end.
Proof.
  intros H Hp. unfold AddPathRule. rewrite index_entry, H, Hp.
  now destruct (PathToNetblocks (Firewall_Rules fw)).
Qed.

(** A call that returns the nil error has stored the parsed networks under
    a path that had no entry, in a map that was not nil. *)
Lemma AddPathRule_success fw path networks fw' :
  AddPathRule fw path networks = (fw', returns None) ->
  exists g trusted,
    PathToNetblocks (Firewall_Rules fw) = Some g
    /\ g !! path = None
    /\ parseNetworks networks [] = inr trusted
    /\ fw' = mkFirewall (mkRules (Some (<[path := trusted]> g))
                                 (FailOpen (Firewall_Rules fw))) (Log fw).
Proof.
  intros H. destruct (entry fw path) as [T|] eqn:He.
  - rewrite (AddPathRule_has_rule _ _ _ _ He) in H. discriminate.
  - destruct (parseNetworks networks []) as [err|trusted] eqn:Hp.
    + rewrite (AddPathRule_parse_error _ _ _ _ He Hp) in H. discriminate.
    + rewrite (AddPathRule_parsed _ _ _ _ He Hp) in H.
      unfold entry in He.
      destruct (PathToNetblocks (Firewall_Rules fw)) as [g|]; [|discriminate].
      exists g, trusted. repeat split; congruence.
Qed.

(** Whatever the call does other than returning nil, the firewall is the
    one it was. *)
Lemma AddPathRule_failure_unchanged fw path networks :
  snd (AddPathRule fw path networks) <> returns None ->
  fst (AddPathRule fw path networks) = fw.
Proof.
  unfold AddPathRule.
  destruct (gomap.index _ _ _) as [rule [|]]; [reflexivity|].
  destruct (parseNetworks networks []); [reflexivity|].
  destruct (gomap.assign _ _ _); simpl; [congruence|reflexivity].
Qed.

End RuleTable.

(** C6. A call of [AddPathRule] for a path that has an entry returns
    [ErrPathHasRule] and leaves the firewall as it was: every entry is the
    one it was, the path keeps its networks, and when the entry came from an
    earlier call that returned nil these are the networks parsed by that
    call. *)
Theorem AddPathRule_already_configured
  (fw : Firewall) (path : string) (networks : list string) (T : list IPNet)
  (Hconfigured : entry fw path = Some T) :
  AddPathRule fw path networks = (fw, returns (Some ErrPathHasRule))
  /\ (forall p, entry (fst (AddPathRule fw path networks)) p = entry fw p)
  /\ entry (fst (AddPathRule fw path networks)) path = Some T
  /\ (forall fw0 networks0,
        AddPathRule fw0 path networks0 = (fw, returns None) ->
        parseNetworks networks0 [] = inr T).
Proof.
  rewrite (AddPathRule_has_rule _ _ networks _ Hconfigured). simpl.
  repeat split; auto.
  intros fw0 networks0 H0.
  destruct (AddPathRule_success _ _ _ _ H0) as (g & trusted & _ & _ & Hp & ->).
  unfold entry in Hconfigured. simpl in Hconfigured.
  rewrite lookup_insert_eq in Hconfigured. congruence.
Qed.

Lemma AddPathRule_already_configured_witness :
  entry (fst (AddPathRule (NewFirewall (Some scenario.noRules) false false) "/hello" ["10.0.0.0/8"]))
        "/hello" = Some [scenario.net10]
  /\ snd (AddPathRule
            (fst (AddPathRule (NewFirewall (Some scenario.noRules) false false) "/hello" ["10.0.0.0/8"]))
            "/hello" ["192.168.0.0/16"])
     = returns (Some ErrPathHasRule).
Proof.
  assert (entry (fst (AddPathRule (NewFirewall (Some scenario.noRules) false false)
                        "/hello" ["10.0.0.0/8"]))
                "/hello" = Some [scenario.net10]) as H
    by (vm_compute; reflexivity).
  split; [exact H|].
  rewrite (proj1 (AddPathRule_already_configured _ "/hello" ["192.168.0.0/16"] _ H)).
  reflexivity.
Defined.

(** C7. When some string of the list is no CIDR, [AddPathRule] leaves the
    firewall as it was, whatever it returns; for a path without an entry it
    returns the error of the first such string, whose text ends with that
    string, without looking at the strings after it, and the path still has
    no entry. *)
Theorem AddPathRule_malformed
  (fw : Firewall) (path : string) (networks : list string)
  (Hbad : Exists malformed networks) :
  exists before bad after,
    networks = before ++ bad :: after
    /\ Forall wellFormed before
    /\ malformed bad
    /\ fst (AddPathRule fw path networks) = fw
    /\ (entry fw path = None ->
        AddPathRule fw path networks
        = (fw, returns (Some (fmt_Errorf
                                ("could not parse CIDR: invalid CIDR address: " +:+ bad))))
        /\ (forall after', AddPathRule fw path (before ++ bad :: after')
                           = AddPathRule fw path networks)
        /\ entry (fst (AddPathRule fw path networks)) path = None).
Proof.
  destruct (first_malformed _ Hbad) as (before & bad & after & -> & Hb & Hm).
  exists before, bad, after.
  assert (forall after', parseNetworks (before ++ bad :: after') []
            = inl (fmt_Errorf ("could not parse CIDR: invalid CIDR address: " +:+ bad)))
    as Hp.
  { intros after'. rewrite parseNetworks_app.
    destruct (parseNetworks_wellFormed before [] Hb) as (parsed & -> & _).
    now apply parseNetworks_malformed. }
  repeat split; auto.
  - apply AddPathRule_failure_unchanged.
    unfold AddPathRule. destruct (gomap.index _ _ _) as [rule [|]]; [discriminate|].
    rewrite Hp. discriminate.
  - now apply AddPathRule_parse_error.
  - intros after'. rewrite !(AddPathRule_parse_error _ _ _ _ H (Hp _)). reflexivity.
  - rewrite (AddPathRule_parse_error _ _ _ _ H (Hp _)). exact H.
Qed.

Lemma AddPathRule_malformed_witness :
  Exists malformed ["10.0.0.0/8"; "10.0.0.0/33"; "192.168.0.0/16"]
  /\ exists before bad after,
       ["10.0.0.0/8"; "10.0.0.0/33"; "192.168.0.0/16"] = before ++ bad :: after
       /\ Forall wellFormed before
       /\ malformed bad
       /\ fst (AddPathRule (NewFirewall (Some scenario.noRules) false false) "/hello"
                 ["10.0.0.0/8"; "10.0.0.0/33"; "192.168.0.0/16"])
          = NewFirewall (Some scenario.noRules) false false.
Proof.
  assert (Exists malformed ["10.0.0.0/8"; "10.0.0.0/33"; "192.168.0.0/16"]) as H.
  { apply Exists_cons_tl, Exists_cons_hd. eexists. vm_compute. reflexivity. }
  split; [exact H|].
  destruct (AddPathRule_malformed (NewFirewall (Some scenario.noRules) false false) "/hello" _ H)
    as (before & bad & after & H1 & H2 & H3 & H4 & _).
  exists before, bad, after. auto.
Defined.

(** C3. On the firewall of [New], whose map is nil, no path has an entry
    and [AddPathRule] with well-formed networks panics at the assignment
    into the map and adds nothing.  A call that returns nil was made on a
    firewall whose map is not nil; on such a firewall, for a path without an
    entry, the call stores the networks and returns nil. *)
Theorem AddPathRule_New_panics
  (path : string) (networks : list string)
  (Hwell : Forall wellFormed networks) :
  PathToNetblocks (Firewall_Rules New) = None
  /\ entry New path = None
  /\ AddPathRule New path networks = (New, panics "assignment to entry in nil map")
  /\ (forall fw fw',
        AddPathRule fw path networks = (fw', returns None) ->
        exists g, PathToNetblocks (Firewall_Rules fw) = Some g)
  /\ (forall (g : gmap string (list IPNet)) failOpen log,
        g !! path = None ->
        exists trusted,
          parseNetworks networks [] = inr trusted
          /\ AddPathRule (NewFirewall (Some g) failOpen log) path networks
             = (NewFirewall (Some (<[path := trusted]> g)) failOpen log, returns None)).
Proof.
  destruct (parseNetworks_wellFormed networks [] Hwell) as (trusted & Hp & _).
  simpl in Hp.
  split; [reflexivity|]. split; [reflexivity|]. split; [|split].
  - now rewrite (AddPathRule_parsed New path networks trusted eq_refl Hp).
  - intros fw fw' H.
    destruct (AddPathRule_success _ _ _ _ H) as (g & _ & Hg & _). eauto.
  - intros g failOpen log Hg. exists trusted. split; [exact Hp|].
    now rewrite (AddPathRule_parsed (NewFirewall (Some g) failOpen log)
                   path networks trusted Hg Hp).
Qed.

Lemma AddPathRule_New_panics_witness :
  Forall wellFormed ["10.0.0.0/8"; "192.168.0.0/16"]
  /\ AddPathRule New "/hello_world" ["10.0.0.0/8"; "192.168.0.0/16"]
     = (New, panics "assignment to entry in nil map").
Proof.
  assert (Forall wellFormed ["10.0.0.0/8"; "192.168.0.0/16"]) as H.
  { repeat constructor; eexists; vm_compute; reflexivity. }
  split; [exact H|].
  apply (AddPathRule_New_panics "/hello_world" ["10.0.0.0/8"; "192.168.0.0/16"] H).
Defined.

(** ** The source address *)

Section SourceAddress.
Implicit Types (s addr rest : string) (a : ascii).

(** [Split] gives at least one string, so the index 0 is in range. *)
Lemma Split_nonempty s sep : strings.Split s sep <> [].
Proof.
  destruct s as [|a s]; simpl; [discriminate|].
  destruct (Ascii.eqb a sep); [discriminate|].
  destruct (strings.Split s sep); discriminate.
Qed.

(** The text before the first colon. *)
Lemma first_Split_cons a s sep :
  strings.first (strings.Split (String a s) sep)
  = if Ascii.eqb a sep then EmptyString
    else String a (strings.first (strings.Split s sep)).
Proof.
  simpl. destruct (Ascii.eqb a sep); [reflexivity|].
  destruct (strings.Split s sep) eqn:E; [|reflexivity].
  destruct s; simpl in E; [discriminate|].
  destruct (Ascii.eqb _ sep); [discriminate|].
  destruct (strings.Split s sep); discriminate.
Qed.

Lemma first_Split_no_sep s sep :
  strings.Contains sep (strings.first (strings.Split s sep)) = false.
Proof.
  induction s as [|a s IH]; [reflexivity|].
  rewrite first_Split_cons.
  destruct (Ascii.eqb a sep) eqn:E; [reflexivity|].
  simpl. now rewrite E.
Qed.

Lemma first_Split_prefix s sep :
  exists rest,
    s = strings.first (strings.Split s sep) +:+ rest
    /\ (rest = EmptyString \/ strings.startsWith sep rest = true).
Proof.
  induction s as [|a s (rest & IH & Hrest)].
  - exists EmptyString. auto.
  - rewrite first_Split_cons.
    destruct (Ascii.eqb a sep) eqn:E.
    + exists (String a s). simpl. auto.
    + exists rest. split; [|exact Hrest].
      change (String a s = String a (strings.first (strings.Split s sep) +:+ rest)).
      now rewrite <- IH.
Qed.

(** [ParseIP] on text without a colon: the dotted form or nothing. *)
Lemma ParseIP_scan_no_colon s rest :
  strings.Contains ":" rest = false ->
  ParseIP_scan s rest = if strings.Contains "." rest then parseIPv4 s else None.
Proof.
  induction rest as [|c rest IH]; simpl; [reflexivity|].
  destruct (Ascii.eqb c ".") eqn:Edot; [reflexivity|].
  destruct (Ascii.eqb c ":") eqn:Ecolon; [discriminate|].
  exact IH.
Qed.

Lemma ParseIP_no_colon s :
  strings.Contains ":" s = false ->
  ParseIP s = if strings.Contains "." s then parseIPv4 s else None.
Proof. apply ParseIP_scan_no_colon. Qed.

Lemma parseIPv4_shape s :
  parseIPv4 s = None \/ exists b0 b1 b2 b3 : Z, parseIPv4 s = IPv4 b0 b1 b2 b3.
Proof.
  unfold parseIPv4.
  destruct (parseIPv4_loop 4 s []) as [[[|a [|b [|c [|d [|]]]]] [|]]|]; eauto 6.
Qed.

(** The wrapper never sees an IPv6 source: the text it parses has no
    colon. *)
Lemma srcIP_nil_or_IPv4 (r : Request) :
  srcIP r = None \/ exists b0 b1 b2 b3 : Z, srcIP r = IPv4 b0 b1 b2 b3.
Proof.
  unfold srcIP. rewrite ParseIP_no_colon by apply first_Split_no_sep.
  destruct (strings.Contains "." _); [apply parseIPv4_shape|now left].
Qed.

(** Text that opens with a bracket is no dotted address. *)
Lemma parseIPv4_bracket s : strings.startsWith "[" s = true -> parseIPv4 s = None.
Proof.
  destruct s as [|a s]; simpl; [discriminate|]. intros H.
  apply Ascii.eqb_eq in H. subst a. reflexivity.
Qed.

Lemma first_Split_bracket addr :
  strings.startsWith "[" addr = true ->
  strings.startsWith "[" (strings.first (strings.Split addr ":")) = true.
Proof.
  destruct addr as [|a s]; [discriminate|]. intros H.
  simpl in H. apply Ascii.eqb_eq in H. subst a.
  rewrite first_Split_cons. reflexivity.
Qed.

(** [xtoi] reads forward. *)
Lemma xtoi_loop_count s n i n' c :
  xtoi_loop s n i = (n', c, true) -> (i <= c)%nat.
Proof.
  revert n i. induction s as [|a s IH]; intros n i; simpl.
  - destruct (Nat.eqb i 0); intros H; inversion H; lia.
  - destruct (hexValue a) as [d|].
    + destruct (n * 16 + d >=? big); [discriminate|].
      intros H. apply IH in H. lia.
    + destruct (Nat.eqb i 0); intros H; inversion H; lia.
Qed.

(** When a dot comes before any colon, the hexadecimal number at the head
    of the text stops at a byte that is not a colon. *)
Lemma xtoi_loop_stops s n i n' c :
  strings.Contains "." (strings.first (strings.Split s ":")) = true ->
  xtoi_loop s n i = (n', c, true) ->
  exists c0 t, strings.from (c - i) s = String c0 t /\ Ascii.eqb c0 ":" = false.
Proof.
  revert n i. induction s as [|a s IH]; intros n i; [discriminate|].
  rewrite first_Split_cons.
  destruct (Ascii.eqb a ":") eqn:Ecolon; [discriminate|].
  simpl. destruct (hexValue a) as [d|] eqn:Ehex.
  - destruct (Ascii.eqb a ".") eqn:Edot.
    { apply Ascii.eqb_eq in Edot. subst a. discriminate. }
    intros Hdot. destruct (n * 16 + d >=? big); [discriminate|].
    intros H. pose proof (xtoi_loop_count _ _ _ _ _ H) as Hc.
    destruct (IH _ _ Hdot H) as (c0 & t & Hfrom & Hc0).
    exists c0, t. split; [|exact Hc0].
    replace (c - i)%nat with (S (c - S i)) by lia. exact Hfrom.
  - intros _. destruct (Nat.eqb i 0); [discriminate|].
    intros H. inversion H; subst. rewrite Nat.sub_diag.
    exists a, s. auto.
Qed.

(** Text with a dot before any colon is no IPv6 address. *)
Lemma parseIPv6_dot_first addr :
  strings.Contains "." (strings.first (strings.Split addr ":")) = true ->
  parseIPv6 addr = None.
Proof.
  intros Hdot. unfold parseIPv6.
  assert (strings.startsWith ":" addr = false) as Hhead.
  { destruct addr as [|a s]; [reflexivity|].
    rewrite first_Split_cons in Hdot. simpl.
    destruct (Ascii.eqb a ":"); [discriminate|reflexivity]. }
  rewrite Hhead. simpl.
  unfold xtoi. destruct (xtoi_loop addr 0 0) as [[n c] ok] eqn:Ex.
  destruct ok; [|reflexivity]. simpl.
  destruct (n >? 65535); [reflexivity|].
  destruct (xtoi_loop_stops _ _ _ _ _ Hdot Ex) as (c0 & t & Hfrom & Hc0).
  rewrite Nat.sub_0_r in Hfrom. rewrite Hfrom. simpl.
  destruct (Ascii.eqb c0 "."); [reflexivity|].
  rewrite Hc0. simpl. now destruct t.
Qed.

(** For a peer address in an IPv6 form the wrapper finds no address. *)
Lemma ParseIP_IPv6Form addr :
  IPv6Form addr -> ParseIP (strings.first (strings.Split addr ":")) = None.
Proof.
  intros H. rewrite ParseIP_no_colon by apply first_Split_no_sep.
  destruct (strings.Contains "." _) eqn:Edot; [|reflexivity].
  destruct H as [Hb|[ip Hip]].
  - now apply parseIPv4_bracket, first_Split_bracket.
  - rewrite (parseIPv6_dot_first _ Edot) in Hip. discriminate.
Qed.

End SourceAddress.

(** C10. The wrapper parses the text of the peer address before its first
    colon.  For a peer address in an IPv6 form, bracketed or bare, that text
    is no address: the source address is nil, no list of networks trusts it,
    and the request is authorized exactly when [FailOpen] is on; otherwise
    it is rejected, with the placeholder of the nil address in the line for
    the log. *)
Theorem srcIP_IPv6Form
  (fw : Firewall) (h : HandlerFunc) (w : ResponseWriter) (r : Request)
  (Hform : IPv6Form (RemoteAddr r)) :
  let segment := strings.first (strings.Split (RemoteAddr r) ":") in
  let path := Path (Request_URL r) in
  (exists rest,
      RemoteAddr r = segment +:+ rest
      /\ strings.Contains ":" segment = false
      /\ (rest = EmptyString \/ strings.startsWith ":" rest = true))
  /\ ParseIP segment = None
  /\ srcIP r = None
  /\ (forall trusted, IPIsTrusted trusted (srcIP r) = false)
  /\ authorized fw path (srcIP r) = FailOpen (Firewall_Rules fw)
  /\ Wrap fw h w r
     = if FailOpen (Firewall_Rules fw) then h w r
       else [ log_Println ("[FIREWALL] blocked request from <nil> for " +:+ path);
              http_Error w "Forbidden" 403 ].
Proof.
  intros segment path.
  assert (srcIP r = None) as Hnil by now apply ParseIP_IPv6Form.
  split; [|split; [|split; [|split; [|split]]]].
  - destruct (first_Split_prefix (RemoteAddr r) ":") as (rest & Heq & Hrest).
    exists rest. split; [exact Heq|]. split; [apply first_Split_no_sep|exact Hrest].
  - exact Hnil.
  - exact Hnil.
  - intros trusted. now rewrite Hnil.
  - rewrite Hnil. apply authorized_absent.
  - unfold Wrap. fold path. rewrite Hnil, authorized_absent.
    now destruct (FailOpen (Firewall_Rules fw)).
Qed.

Lemma srcIP_IPv6Form_witness :
  (IPv6Form "[2001:db8::1]:443" /\ IPv6Form "2001:db8::1")
  /\ srcIP (scenario.request "[2001:db8::1]:443" "/hello") = None
  /\ Wrap (NewFirewall (Some scenario.helloRules) false true)
          scenario.helloWorldHandler scenario.w0
          (scenario.request "2001:db8::1" "/hello")
     = [ log_Println "[FIREWALL] blocked request from <nil> for /hello";
         http_Error scenario.w0 "Forbidden" 403 ].
Proof.
  assert (IPv6Form "[2001:db8::1]:443") as H1 by (left; reflexivity).
  assert (IPv6Form "2001:db8::1") as H2 by (right; eexists; vm_compute; reflexivity).
  split; [split; assumption|]. split.
  - apply (srcIP_IPv6Form New (fun _ _ => []) scenario.w0
             (scenario.request "[2001:db8::1]:443" "/hello") H1).
  - apply (srcIP_IPv6Form (NewFirewall (Some scenario.helloRules) false true)
             scenario.helloWorldHandler scenario.w0
             (scenario.request "2001:db8::1" "/hello") H2).
Defined.

(** ** The scenarios of the specification, by evaluation *)

Section Scenarios.
Import scenario.

(** Containment for an IPv4 network and an IPv4 address: the bytes agree
    under the mask. *)
Lemma Contains_IPv4 (n0 n1 n2 n3 m0 m1 m2 m3 a0 a1 a2 a3 : Z) :
  Contains (mkIPNet (Some [n0; n1; n2; n3]) [m0; m1; m2; m3]) (IPv4 a0 a1 a2 a3)
  = (Z.land n0 m0 =? Z.land a0 m0) && ((Z.land n1 m1 =? Z.land a1 m1)
    && ((Z.land n2 m2 =? Z.land a2 m2) && ((Z.land n3 m3 =? Z.land a3 m3) && true))).
Proof. reflexivity. Qed.

Example ParseCIDR_10 :
  ParseCIDR "10.0.0.0/8" = inr (IPv4 10 0 0 0, net10).
Proof. vm_compute. reflexivity. Qed.

Example AddPathRule_hello :
  AddPathRule (NewFirewall (Some noRules) false false) "/hello" ["10.0.0.0/8"]
  = (failClosed, returns None).
Proof. vm_compute. reflexivity. Qed.

(** A: a request from inside the trusted network reaches the handler, one
    from outside is rejected. *)
Example scenario_A_inside :
  Wrap failClosed helloWorldHandler w0 (request "10.1.2.3:40000" "/hello")
  = [WriteHeader w0 200; Write w0 "Hello World!"].
Proof. vm_compute. reflexivity. Qed.

Example scenario_A_outside :
  Wrap failClosed helloWorldHandler w0 (request "203.0.113.5:40000" "/hello")
  = [ log_Println "[FIREWALL] blocked request from 203.0.113.5 for /hello";
      http_Error w0 "Forbidden" 403 ].
Proof. vm_compute. reflexivity. Qed.

(** B: a path without an entry is closed when [FailOpen] is off. *)
Example scenario_B :
  Wrap failClosed helloWorldHandler w0 (request "10.1.2.3:40000" "/other")
  = [ log_Println "[FIREWALL] blocked request from 10.1.2.3 for /other";
      http_Error w0 "Forbidden" 403 ].
Proof. vm_compute. reflexivity. Qed.

(** C: and open when [FailOpen] is on. *)
Example scenario_C :
  Wrap failOpen helloWorldHandler w0 (request "203.0.113.5:40000" "/other")
  = [WriteHeader w0 200; Write w0 "Hello World!"].
Proof. vm_compute. reflexivity. Qed.

(** D: the second registration of a path is refused. *)
Example scenario_D :
  AddPathRule failClosed "/hello" ["192.168.0.0/16"]
  = (failClosed, returns (Some ErrPathHasRule)).
Proof. vm_compute. reflexivity. Qed.

(** The README builds its firewall with [New] and adds a rule: the call
    panics. *)
Example README_panics :
  snd (AddPathRule New "/hello_world" ["10.0.0.0/8"; "192.168.0.0/16"])
  = panics "assignment to entry in nil map".
Proof. vm_compute. reflexivity. Qed.

End Scenarios.

(** ** Further properties of the rule table *)

Section Registration.
Implicit Types (fw : Firewall) (path network : string) (networks : list string)
  (trusted : list IPNet).

(** What the loop of [AddPathRule] returns when no string is refused: the
    networks it was given, then those of the strings, one a string, in
    their order. *)
Lemma parseNetworks_inr networks trusted result :
  parseNetworks networks trusted = inr result ->
  exists parsed,
    result = trusted ++ parsed
    /\ Forall2 (fun network netblock => exists ip, ParseCIDR network = inr (ip, netblock))
               networks parsed.
Proof.
  revert trusted. induction networks as [|network networks IH]; intros trusted; simpl.
  - intros H. exists []. split; [|constructor]. rewrite app_nil_r. congruence.
  - destruct (ParseCIDR network) as [e|[ip netblock]] eqn:E; [discriminate|].
    intros H. destruct (IH _ H) as (parsed & -> & HF).
    exists (netblock :: parsed). split.
    + now rewrite <- app_assoc.
    + constructor; eauto.
Qed.

Lemma parseNetworks_inr_wellFormed networks trusted result :
  parseNetworks networks trusted = inr result -> Forall wellFormed networks.
Proof.
  intros H. destruct (parseNetworks_inr _ _ _ H) as (parsed & _ & HF). clear H.
  induction HF as [|network netblock networks parsed [ip Hip] _ IH]; constructor.
  - now exists (ip, netblock).
  - exact IH.
Qed.

Lemma parseNetworks_inl_malformed networks trusted err :
  parseNetworks networks trusted = inl err ->
  exists bad,
    In bad networks /\ malformed bad
    /\ err = fmt_Errorf ("could not parse CIDR: invalid CIDR address: " +:+ bad).
Proof.
  revert trusted. induction networks as [|network networks IH]; intros trusted; simpl.
  - discriminate.
  - destruct (ParseCIDR network) as [e|[ip netblock]] eqn:E.
    + intros H. exists network. split; [now left|]. split; [now exists e|].
      rewrite (ParseCIDR_error _ _ E) in H. inversion H. reflexivity.
    + intros H. destruct (IH _ H) as (bad & Hin & Hm & ->).
      exists bad. split; [now right|]. auto.
Qed.

Lemma entry_mkFirewall (g : gmap string (list IPNet)) failOpen log p :
  entry (mkFirewall (mkRules (Some g) failOpen) log) p = g !! p.
Proof. reflexivity. Qed.

End Registration.

(** X1. On a firewall whose map is not nil, for a path without an entry and
    strings that are all CIDRs, [AddPathRule] returns nil and the path gets
    the networks of the strings, one a string and in their order; the
    entries of the other paths, [FailOpen] and [Log] are what they were. *)
Theorem AddPathRule_stores
  (fw : Firewall) (g : gmap string (list IPNet)) (path : string) (networks : list string)
  (Hmap : PathToNetblocks (Firewall_Rules fw) = Some g)
  (Hfree : g !! path = None)
  (Hwell : Forall wellFormed networks) :
  exists trusted fw',
    AddPathRule fw path networks = (fw', returns None)
    /\ Forall2 (fun network netblock => exists ip, ParseCIDR network = inr (ip, netblock))
               networks trusted
    /\ entry fw' path = Some trusted
    /\ (forall p, p <> path -> entry fw' p = entry fw p)
    /\ FailOpen (Firewall_Rules fw') = FailOpen (Firewall_Rules fw)
    /\ Log fw' = Log fw.
Proof.
  destruct (parseNetworks_wellFormed networks [] Hwell) as (trusted & Hp & _).
  simpl in Hp.
  assert (entry fw path = None) as He by (unfold entry; now rewrite Hmap).
  exists trusted. eexists. split.
  { rewrite (AddPathRule_parsed _ _ _ _ He Hp), Hmap. reflexivity. }
  destruct (parseNetworks_inr _ _ _ Hp) as (parsed & Heq & HF).
  simpl in Heq. subst parsed.
  split; [exact HF|]. split; [|split; [|split; reflexivity]].
  - rewrite entry_mkFirewall. apply lookup_insert_eq.
  - intros p Hne. rewrite entry_mkFirewall. unfold entry. rewrite Hmap.
    now apply lookup_insert_ne.
Qed.

Lemma AddPathRule_stores_witness :
  exists trusted fw',
    AddPathRule (NewFirewall (Some scenario.helloRules) false true) "/metrics"
                ["192.168.0.0/16"; "2001:db8::/32"]
    = (fw', returns None)
    /\ length trusted = 2%nat
    /\ entry fw' "/metrics" = Some trusted
    /\ entry fw' "/hello" = Some [scenario.net10].
Proof.
  destruct (AddPathRule_stores (NewFirewall (Some scenario.helloRules) false true)
              scenario.helloRules "/metrics" ["192.168.0.0/16"; "2001:db8::/32"])
    as (trusted & fw' & H1 & H2 & H3 & H4 & _).
  - reflexivity.
  - vm_compute. reflexivity.
  - repeat constructor; eexists; vm_compute; reflexivity.
  - exists trusted, fw'. split; [exact H1|]. split; [|split; [exact H3|]].
    + apply Forall2_length in H2. simpl in H2. congruence.
    + rewrite H4 by discriminate. vm_compute. reflexivity.
Defined.

(** X2. Whatever [AddPathRule] does, it takes nothing back: a path that
    had an entry keeps it with the same networks, and [FailOpen] and [Log]
    are never touched. *)
Theorem AddPathRule_keeps
  (fw : Firewall) (path : string) (networks : list string) :
  (forall p T, entry fw p = Some T ->
               entry (fst (AddPathRule fw path networks)) p = Some T)
  /\ FailOpen (Firewall_Rules (fst (AddPathRule fw path networks)))
     = FailOpen (Firewall_Rules fw)
  /\ Log (fst (AddPathRule fw path networks)) = Log fw.
Proof.
  destruct (AddPathRule fw path networks) as [fw' [[e|]|msg]] eqn:E.
  - assert (fw' = fw) as ->.
    { pose proof (AddPathRule_failure_unchanged fw path networks) as H.
      rewrite E in H. apply H. discriminate. }
    auto.
  - destruct (AddPathRule_success _ _ _ _ E) as (g & trusted & Hg & Hfree & _ & ->).
    simpl. split; [|split; reflexivity].
    intros p T Hp. rewrite entry_mkFirewall.
    unfold entry in Hp. rewrite Hg in Hp.
    rewrite lookup_insert_ne; [exact Hp|]. congruence.
  - assert (fw' = fw) as ->.
    { pose proof (AddPathRule_failure_unchanged fw path networks) as H.
      rewrite E in H. apply H. discriminate. }
    auto.
Qed.

Lemma AddPathRule_keeps_witness :
  entry (fst (AddPathRule scenario.failClosed "/metrics" ["192.168.0.0/16"])) "/hello"
  = Some [scenario.net10].
Proof.
  apply (AddPathRule_keeps scenario.failClosed "/metrics" ["192.168.0.0/16"]).
  vm_compute. reflexivity.
Defined.

(** X3. [AddPathRule] returns nil exactly when the map is not nil, the path
    has no entry in it and every string is a CIDR; it panics exactly when
    the map is nil and every string is a CIDR; otherwise it returns an
    error. *)
Theorem AddPathRule_outcome
  (fw : Firewall) (path : string) (networks : list string) :
  (snd (AddPathRule fw path networks) = returns None
   <-> (exists g, PathToNetblocks (Firewall_Rules fw) = Some g /\ g !! path = None)
       /\ Forall wellFormed networks)
  /\ ((exists msg, snd (AddPathRule fw path networks) = panics msg)
      <-> PathToNetblocks (Firewall_Rules fw) = None /\ Forall wellFormed networks)
  /\ ((exists err, snd (AddPathRule fw path networks) = returns (Some err))
      <-> is_Some (entry fw path) \/ Exists malformed networks).
Proof.
  destruct (entry fw path) as [T|] eqn:He.
  { rewrite (AddPathRule_has_rule _ _ networks _ He). simpl.
    unfold entry in He.
    split; [|split]; split.
    - discriminate.
    - intros [(g & Hg & Hfree) _]. rewrite Hg in He. congruence.
    - intros [msg H]. discriminate.
    - intros [Hnil _]. rewrite Hnil in He. discriminate.
    - intros _. left. eauto.
    - intros _. eauto. }
  destruct (parseNetworks networks []) as [err|trusted] eqn:Hp.
  { rewrite (AddPathRule_parse_error _ _ _ _ He Hp). simpl.
    destruct (parseNetworks_inl_malformed _ _ _ Hp) as (bad & Hin & Hbad & _).
    assert (Exists malformed networks) as Hex.
    { apply List.Exists_exists. eauto. }
    assert (~ Forall wellFormed networks) as Hnot.
    { intros HF. rewrite List.Forall_forall in HF.
      eapply wellFormed_not_malformed; eauto. }
    split; [|split]; split.
    - discriminate.
    - intros [_ HF]. contradiction.
    - intros [msg H]. discriminate.
    - intros [_ HF]. contradiction.
    - intros _. now right.
    - intros _. eauto. }
  rewrite (AddPathRule_parsed _ _ _ _ He Hp).
  pose proof (parseNetworks_inr_wellFormed _ _ _ Hp) as HF.
  assert (~ Exists malformed networks) as Hnot.
  { intros Hex. apply List.Exists_exists in Hex. destruct Hex as (bad & Hin & Hbad).
    rewrite List.Forall_forall in HF. eapply wellFormed_not_malformed; eauto. }
  unfold entry in He.
  destruct (PathToNetblocks (Firewall_Rules fw)) as [g|] eqn:Hg; simpl.
  - split; [|split]; split.
    + intros _. split; [exists g; auto|exact HF].
    + reflexivity.
    + intros [msg H]. discriminate.
    + intros [H _]. discriminate.
    + intros [err H]. discriminate.
    + intros [[T HT]|Hex]; [discriminate|contradiction].
  - split; [|split]; split.
    + discriminate.
    + intros [(g & Hg' & _) _]. discriminate.
    + intros _. auto.
    + intros _. eauto.
    + intros [err H]. discriminate.
    + intros [[T HT]|Hex]; [discriminate|contradiction].
Qed.

Lemma AddPathRule_outcome_witness :
  snd (AddPathRule (NewFirewall (Some scenario.noRules) false false) "/hello"
         ["10.0.0.0/8"]) = returns None.
Proof.
  apply (AddPathRule_outcome (NewFirewall (Some scenario.noRules) false false)
           "/hello" ["10.0.0.0/8"]).
  split.
  - exists scenario.noRules. split; reflexivity.
  - repeat constructor. eexists. vm_compute. reflexivity.
Defined.

(** X4. Two registrations that succeed one after the other, for different
    paths, succeed in the other order too and leave the same firewall. *)
Theorem AddPathRule_commute
  (fw fw1 fw12 : Firewall) (path1 path2 : string) (networks1 networks2 : list string)
  (Hne : path1 <> path2)
  (H1 : AddPathRule fw path1 networks1 = (fw1, returns None))
  (H2 : AddPathRule fw1 path2 networks2 = (fw12, returns None)) :
  exists fw2,
    AddPathRule fw path2 networks2 = (fw2, returns None)
    /\ AddPathRule fw2 path1 networks1 = (fw12, returns None).
Proof.
  destruct (AddPathRule_success _ _ _ _ H1) as (g & trusted1 & Hg & Hfree1 & Hp1 & ->).
  destruct (AddPathRule_success _ _ _ _ H2) as (g1 & trusted2 & Hg1 & Hfree2 & Hp2 & ->).
  simpl in Hg1. injection Hg1 as <-. simpl.
  rewrite lookup_insert_ne in Hfree2 by exact Hne.
  eexists. split.
  - rewrite (AddPathRule_parsed fw path2 networks2 trusted2); [|unfold entry; now rewrite Hg|exact Hp2].
    rewrite Hg. reflexivity.
  - rewrite (AddPathRule_parsed _ path1 networks1 trusted1); [| |exact Hp1].
    + simpl. now rewrite insert_insert_ne.
    + rewrite entry_mkFirewall. rewrite lookup_insert_ne; [exact Hfree1|congruence].
Qed.

Lemma AddPathRule_commute_witness :
  exists fw2,
    AddPathRule (NewFirewall (Some scenario.noRules) false false) "/metrics" ["192.168.0.0/16"]
    = (fw2, returns None)
    /\ AddPathRule fw2 "/hello" ["10.0.0.0/8"]
       = (fst (AddPathRule scenario.failClosed "/metrics" ["192.168.0.0/16"]), returns None).
Proof.
  apply (AddPathRule_commute (NewFirewall (Some scenario.noRules) false false)
           scenario.failClosed
           (fst (AddPathRule scenario.failClosed "/metrics" ["192.168.0.0/16"]))
           "/hello" "/metrics" ["10.0.0.0/8"] ["192.168.0.0/16"]).
  - discriminate.
  - vm_compute. reflexivity.
  - vm_compute. reflexivity.
Defined.

(** X5. The errors of [AddPathRule] are [ErrPathHasRule] and, for a string
    of the list that is no CIDR, a new error whose text names the string;
    it never returns [ErrCouldNotParseCIDR] or [ErrCouldNotReadSrc], so a
    caller that compares with these finds no match. *)
Theorem AddPathRule_errors
  (fw : Firewall) (path : string) (networks : list string) (err : error)
  (Herr : snd (AddPathRule fw path networks) = returns (Some err)) :
  (err = ErrPathHasRule /\ is_Some (entry fw path)
   \/ exists bad,
        In bad networks /\ malformed bad /\ entry fw path = None
        /\ err = fmt_Errorf ("could not parse CIDR: invalid CIDR address: " +:+ bad))
  /\ err <> ErrCouldNotParseCIDR
  /\ err <> ErrCouldNotReadSrc.
Proof.
  assert (err = ErrPathHasRule /\ is_Some (entry fw path)
          \/ exists bad,
               In bad networks /\ malformed bad /\ entry fw path = None
               /\ err = fmt_Errorf ("could not parse CIDR: invalid CIDR address: " +:+ bad))
    as Hcases.
  { destruct (entry fw path) as [T|] eqn:He.
    - rewrite (AddPathRule_has_rule _ _ networks _ He) in Herr. simpl in Herr.
      left. split; [congruence|eauto].
    - destruct (parseNetworks networks []) as [e|trusted] eqn:Hp.
      + rewrite (AddPathRule_parse_error _ _ _ _ He Hp) in Herr. simpl in Herr.
        destruct (parseNetworks_inl_malformed _ _ _ Hp) as (bad & Hin & Hbad & ->).
        right. exists bad. repeat split; auto. congruence.
      + rewrite (AddPathRule_parsed _ _ _ _ He Hp) in Herr.
        destruct (PathToNetblocks (Firewall_Rules fw)); discriminate. }
  split; [exact Hcases|].
  destruct Hcases as [[-> _]|(bad & _ & _ & _ & ->)]; split; discriminate.
Qed.

Lemma AddPathRule_errors_witness :
  fmt_Errorf "could not parse CIDR: invalid CIDR address: 10.0.0.0/33"
  <> ErrCouldNotParseCIDR.
Proof.
  apply (AddPathRule_errors scenario.failClosed "/metrics" ["10.0.0.0/33"]).
  vm_compute. reflexivity.
Defined.

(** X6. After a registration that succeeds, the decision for the new path
    is the membership test on the networks of the strings (or [FailOpen]),
    and the decision and the wrapped handler for every other path are what
    they were. *)
Theorem authorized_after_AddPathRule
  (fw fw' : Firewall) (path : string) (networks : list string)
  (Hadd : AddPathRule fw path networks = (fw', returns None)) :
  exists trusted,
    parseNetworks networks [] = inr trusted
    /\ (forall a, authorized fw' path a
                  = IPIsTrusted trusted a || FailOpen (Firewall_Rules fw))
    /\ (forall p a, p <> path -> authorized fw' p a = authorized fw p a)
    /\ (forall h w r, Path (Request_URL r) <> path -> Wrap fw' h w r = Wrap fw h w r).
Proof.
  destruct (AddPathRule_success _ _ _ _ Hadd) as (g & trusted & Hg & Hfree & Hp & ->).
  exists trusted. split; [exact Hp|].
  assert (forall p a, p <> path ->
            authorized (mkFirewall (mkRules (Some (<[path := trusted]> g))
                                            (FailOpen (Firewall_Rules fw))) (Log fw)) p a
            = authorized fw p a) as Hother.
  { intros p a Hne. unfold authorized. rewrite !index_entry, entry_mkFirewall.
    unfold entry. rewrite Hg. rewrite lookup_insert_ne by congruence. reflexivity. }
  split; [|split].
  - intros a.
    rewrite (authorized_configured _ path a trusted); [reflexivity|].
    rewrite entry_mkFirewall. apply lookup_insert_eq.
  - exact Hother.
  - intros h w r Hne. unfold Wrap. now rewrite Hother.
Qed.

Lemma authorized_after_AddPathRule_witness :
  exists trusted,
    parseNetworks ["10.0.0.0/8"] [] = inr trusted
    /\ (forall a, authorized scenario.failClosed "/hello" a
                  = IPIsTrusted trusted a || false).
Proof.
  destruct (authorized_after_AddPathRule
              (NewFirewall (Some scenario.noRules) false false) scenario.failClosed
              "/hello" ["10.0.0.0/8"]) as (trusted & H1 & H2 & _).
  - vm_compute. reflexivity.
  - exists trusted. split; [exact H1|exact H2].
Defined.

(** ** Further properties of the membership test and of the wrapper *)

(** X7. The membership test on a list made of two is the disjunction of
    the tests on each: networks added before or after a list never take
    trust away. *)
Theorem IPIsTrusted_app (trusted1 trusted2 : list IPNet) (src : IP) :
  IPIsTrusted (trusted1 ++ trusted2) src
  = IPIsTrusted trusted1 src || IPIsTrusted trusted2 src
  /\ (IPIsTrusted trusted2 src = true ->
      forall before after, IPIsTrusted (before ++ trusted2 ++ after) src = true).
Proof.
  assert (forall l1 l2, IPIsTrusted (l1 ++ l2) src
                        = IPIsTrusted l1 src || IPIsTrusted l2 src) as Happ.
  { intros l1 l2. destruct src as [b|]; [|reflexivity]. simpl.
    rewrite !IPIsTrusted_loop_existsb. apply existsb_app. }
  split; [apply Happ|].
  intros H before after. rewrite !Happ, H. simpl. apply orb_true_r.
Qed.

Lemma IPIsTrusted_app_witness :
  IPIsTrusted ([] ++ [scenario.net10] ++ []) (IPv4 10 1 2 3) = true.
Proof.
  apply (IPIsTrusted_app [] [scenario.net10] (IPv4 10 1 2 3)).
  vm_compute. reflexivity.
Defined.

(** X8. The membership test does not depend on the order of the list. *)
Theorem IPIsTrusted_Permutation (trusted trusted' : list IPNet) (src : IP)
  (Hperm : Permutation trusted trusted') :
  IPIsTrusted trusted src = IPIsTrusted trusted' src.
Proof.
  destruct src as [b|]; [|reflexivity]. simpl.
  rewrite !IPIsTrusted_loop_existsb.
  induction Hperm as [|n l l' _ IH|n n' l|l l' l'' _ IH1 _ IH2]; simpl.
  - reflexivity.
  - now rewrite IH.
  - destruct (Contains n (Some b)), (Contains n' (Some b)); reflexivity.
  - congruence.
Qed.

Lemma IPIsTrusted_Permutation_witness :
  IPIsTrusted [scenario.net10; mkIPNet (Some [192; 168; 0; 0]) [255; 255; 0; 0]]
              (IPv4 192 168 1 1)
  = IPIsTrusted [mkIPNet (Some [192; 168; 0; 0]) [255; 255; 0; 0]; scenario.net10]
                (IPv4 192 168 1 1).
Proof.
  apply IPIsTrusted_Permutation. apply perm_swap.
Defined.

(** X9. A handler wrapped by two firewalls is reached exactly when both
    authorize the request, and is otherwise rejected once, as by one; so the
    order of the two does not matter and wrapping twice with one firewall is
    wrapping once. *)
Theorem Wrap_Wrap
  (fw1 fw2 : Firewall) (h : HandlerFunc) (w : ResponseWriter) (r : Request) :
  Wrap fw1 (Wrap fw2 h) w r
  = (if authorized fw1 (Path (Request_URL r)) (srcIP r)
        && authorized fw2 (Path (Request_URL r)) (srcIP r)
     then h w r else rejection w r)
  /\ Wrap fw1 (Wrap fw2 h) w r = Wrap fw2 (Wrap fw1 h) w r
  /\ Wrap fw1 (Wrap fw1 h) w r = Wrap fw1 h w r.
Proof.
  unfold Wrap, rejection.
  destruct (authorized fw1 _ _), (authorized fw2 _ _); simpl; auto.
Qed.

(** ** Further properties of the source address *)

Section DottedDecimal.
Implicit Types (s r rest : string) (k : nat) (p : list Z).

(** [dtoi] never gives a negative number. *)
Lemma dtoi_loop_nonneg s n i n' c ok :
  0 <= n -> dtoi_loop s n i = (n', c, ok) -> 0 <= n'.
Proof.
  revert n i. induction s as [|a s IH]; intros n i Hn; simpl.
  - destruct (Nat.eqb i 0); intros H; inversion H; lia.
  - destruct (isDigit a) eqn:Ed.
    + destruct (n * 10 + (code a - code "0") >=? big) eqn:Eb.
      * intros H. inversion H. unfold big. lia.
      * apply IH. unfold isDigit in Ed. apply andb_true_iff in Ed. lia.
    + destruct (Nat.eqb i 0); intros H; inversion H; lia.
Qed.

(** The numbers [parseIPv4] reads are bytes. *)
Lemma parseIPv4_loop_bytes k s p p' s' :
  Forall inByte p -> parseIPv4_loop k s p = Some (p', s') -> Forall inByte p'.
Proof.
  revert s p. induction k as [|k IH]; intros s p Hp; simpl.
  - intros H. inversion H. now subst.
  - destruct s as [|c0 s0]; [discriminate|].
    destruct (if Nat.eqb (length p) 0 then Some (String c0 s0)
              else if Ascii.eqb c0 "." then Some s0 else None) as [s1|]; [|discriminate].
    destruct (dtoi s1) as [[n c] ok] eqn:Ed.
    destruct (negb ok || (n >? 255)) eqn:Eok; [discriminate|].
    destruct (Nat.ltb 1 c && strings.startsWith "0" s1); [discriminate|].
    apply IH. apply Forall_app. split; [exact Hp|].
    constructor; [|constructor].
    apply orb_false_iff in Eok. destruct Eok as [_ Hmax].
    pose proof (dtoi_loop_nonneg s1 0 0%nat n c ok (Z.le_refl 0) Ed).
    unfold inByte. lia.
Qed.

Lemma parseIPv4_bytes s :
  parseIPv4 s = None
  \/ exists b0 b1 b2 b3,
       parseIPv4 s = IPv4 b0 b1 b2 b3
       /\ inByte b0 /\ inByte b1 /\ inByte b2 /\ inByte b3.
Proof.
  unfold parseIPv4.
  destruct (parseIPv4_loop 4 s []) as [[p s']|] eqn:E; [|now left].
  pose proof (parseIPv4_loop_bytes _ _ _ _ _ (List.Forall_nil inByte) E) as Hb.
  destruct p as [|b0 [|b1 [|b2 [|b3 [|]]]]]; auto.
  destruct s'; auto.
  right. exists b0, b1, b2, b3. split; [reflexivity|].
  repeat match goal with H : Forall _ (_ :: _) |- _ => inversion H; clear H; subst end.
  auto.
Qed.

(** The bytes, one by one. *)
Lemma byte_cases (P : Z -> Prop) :
  Forall P (map Z.of_nat (seq 0 256)) -> forall b, inByte b -> P b.
Proof.
  intros H b Hb. rewrite List.Forall_forall in H. apply H.
  apply in_map_iff. exists (Z.to_nat b). split; [unfold inByte in Hb; lia|].
  apply in_seq. unfold inByte in Hb. lia.
Qed.

Ltac each_byte :=
  let l := eval vm_compute in (map Z.of_nat (seq 0 256)) in
  change (map Z.of_nat (seq 0 256)) with l;
  repeat (constructor; [intros; reflexivity|]); constructor.

(** [parseIPv4] reads back what [ubtoa] writes: the first number, one in
    the middle, the last. *)
Lemma parseIPv4_loop_first b :
  inByte b ->
  forall k r, parseIPv4_loop (S k) (ubtoa b +:+ String "." r) []
              = parseIPv4_loop k (String "." r) [b].
Proof. intros Hb. pattern b. apply byte_cases; [each_byte|exact Hb]. Qed.

Lemma parseIPv4_loop_next b :
  inByte b ->
  forall k r x p, parseIPv4_loop (S k) (String "." (ubtoa b +:+ String "." r)) (x :: p)
                  = parseIPv4_loop k (String "." r) (x :: (p ++ [b])).
Proof. intros Hb. pattern b. apply byte_cases; [each_byte|exact Hb]. Qed.

Lemma parseIPv4_loop_last b :
  inByte b ->
  forall x p, parseIPv4_loop 1 (String "." (ubtoa b)) (x :: p)
              = Some (x :: (p ++ [b]), EmptyString).
Proof. intros Hb. pattern b. apply byte_cases; [each_byte|exact Hb]. Qed.

Lemma ubtoa_no_colon b : inByte b -> strings.Contains ":" (ubtoa b) = false.
Proof. intros Hb. pattern b. apply byte_cases; [each_byte|exact Hb]. Qed.

Lemma Contains_append (c : ascii) s r :
  strings.Contains c (s +:+ r) = strings.Contains c s || strings.Contains c r.
Proof.
  induction s as [|a s IH]; [reflexivity|].
  change (String a s +:+ r) with (String a (s +:+ r)). simpl.
  now destruct (Ascii.eqb a c).
Qed.

Lemma first_Split_append (sep : ascii) s rest :
  strings.Contains sep s = false ->
  rest = EmptyString \/ strings.startsWith sep rest = true ->
  strings.first (strings.Split (s +:+ rest) sep) = s.
Proof.
  induction s as [|a s IH]; intros Hs Hrest.
  - change (EmptyString +:+ rest) with rest.
    destruct Hrest as [->|Hrest]; [reflexivity|].
    destruct rest as [|a rest]; [discriminate|].
    rewrite first_Split_cons. simpl in Hrest. now rewrite Hrest.
  - change (String a s +:+ rest) with (String a (s +:+ rest)).
    rewrite first_Split_cons. simpl in Hs.
    destruct (Ascii.eqb a sep); [discriminate|].
    now rewrite IH.
Qed.

(** The dotted text of an IPv4 address. *)
Lemma IP_String_IPv4 b0 b1 b2 b3 :
  IP_String (IPv4 b0 b1 b2 b3)
  = ubtoa b0 +:+ String "." (ubtoa b1 +:+ String "." (ubtoa b2 +:+ String "." (ubtoa b3))).
Proof. reflexivity. Qed.

Lemma parseIPv4_IP_String b0 b1 b2 b3 :
  inByte b0 -> inByte b1 -> inByte b2 -> inByte b3 ->
  parseIPv4 (IP_String (IPv4 b0 b1 b2 b3)) = IPv4 b0 b1 b2 b3.
Proof.
  intros H0 H1 H2 H3. rewrite IP_String_IPv4. unfold parseIPv4.
  rewrite (parseIPv4_loop_first _ H0), (parseIPv4_loop_next _ H1),
    (parseIPv4_loop_next _ H2), (parseIPv4_loop_last _ H3).
  reflexivity.
Qed.

Lemma IP_String_IPv4_no_colon b0 b1 b2 b3 :
  inByte b0 -> inByte b1 -> inByte b2 -> inByte b3 ->
  strings.Contains ":" (IP_String (IPv4 b0 b1 b2 b3)) = false.
Proof.
  intros H0 H1 H2 H3. rewrite IP_String_IPv4.
  rewrite Contains_append, (ubtoa_no_colon _ H0). simpl.
  rewrite Contains_append, (ubtoa_no_colon _ H1). simpl.
  rewrite Contains_append, (ubtoa_no_colon _ H2). simpl.
  apply (ubtoa_no_colon _ H3).
Qed.

Lemma IP_String_IPv4_dot b0 b1 b2 b3 :
  strings.Contains "." (IP_String (IPv4 b0 b1 b2 b3)) = true.
Proof.
  rewrite IP_String_IPv4, Contains_append. simpl. apply orb_true_r.
Qed.

End DottedDecimal.

(** X10. Whatever the peer address, the source address of the wrapper is
    nil or the 16-byte form of an IPv4 address with four bytes: the wrapper
    never has an IPv6 source address. *)
Theorem srcIP_never_IPv6 (r : Request) :
  srcIP r = None
  \/ exists b0 b1 b2 b3,
       srcIP r = IPv4 b0 b1 b2 b3
       /\ To4 (srcIP r) = Some [b0; b1; b2; b3]
       /\ inByte b0 /\ inByte b1 /\ inByte b2 /\ inByte b3.
Proof.
  unfold srcIP. rewrite ParseIP_no_colon by apply first_Split_no_sep.
  destruct (strings.Contains "." _); [|now left].
  destruct (parseIPv4_bytes (strings.first (strings.Split (RemoteAddr r) ":")))
    as [->|(b0 & b1 & b2 & b3 & -> & Hb)]; [now left|].
  right. exists b0, b1, b2, b3. split; [reflexivity|]. split; [reflexivity|exact Hb].
Qed.

Section IPv6Networks.

(** A network whose address is not IPv4 contains no IPv4 address. *)
Lemma Contains_not_IPv4 (n : IPNet) (b0 b1 b2 b3 : Z) :
  To4 (IPNet_IP n) = None -> Contains n (IPv4 b0 b1 b2 b3) = false.
Proof.
  intros H. unfold Contains, networkNumberAndMask. rewrite H.
  destruct (Nat.eqb (len (IPNet_IP n)) IPv6len) eqn:E16; simpl; [|reflexivity].
  apply Nat.eqb_eq in E16.
  destruct (Nat.eqb (length (IPNet_Mask n)) IPv4len); simpl.
  - rewrite E16. reflexivity.
  - destruct (Nat.eqb (length (IPNet_Mask n)) IPv6len); simpl; [|reflexivity].
    rewrite E16. simpl. rewrite E16. reflexivity.
Qed.

End IPv6Networks.

(** X11. Networks whose address is not IPv4 (those of IPv6 CIDRs) trust no
    request at all, since the wrapper has no IPv6 source address: a path
    configured with such networks only is rejected for every peer while
    [FailOpen] is off. *)
Theorem IPv6_networks_trust_no_request
  (trusted : list IPNet) (r : Request)
  (Hv6 : Forall (fun n => To4 (IPNet_IP n) = None) trusted) :
  IPIsTrusted trusted (srcIP r) = false
  /\ forall fw h w,
       FailOpen (Firewall_Rules fw) = false ->
       entry fw (Path (Request_URL r)) = Some trusted ->
       Wrap fw h w r = rejection w r.
Proof.
  assert (IPIsTrusted trusted (srcIP r) = false) as Hno.
  { destruct (srcIP_nil_or_IPv4 r) as [->|(b0 & b1 & b2 & b3 & ->)]; [reflexivity|].
    simpl. rewrite IPIsTrusted_loop_existsb.
    induction Hv6 as [|n l Hn _ IH]; [reflexivity|]. simpl.
    now rewrite (Contains_not_IPv4 _ _ _ _ _ Hn). }
  split; [exact Hno|].
  intros fw h w Hclosed He. apply Wrap_denied.
  now rewrite (authorized_failClosed _ _ _ _ Hclosed He).
Qed.

Lemma IPv6_networks_trust_no_request_witness :
  exists net6,
    ParseCIDR "2001:db8::/32" = inr (ParseIP "2001:db8::", net6)
    /\ IPIsTrusted [net6] (srcIP (scenario.request "[2001:db8::1]:443" "/v6")) = false
    /\ IPIsTrusted [net6] (srcIP (scenario.request "10.1.2.3:443" "/v6")) = false.
Proof.
  eexists. split; [vm_compute; reflexivity|]. split.
  - apply (IPv6_networks_trust_no_request _ (scenario.request "[2001:db8::1]:443" "/v6")).
    repeat constructor.
  - apply (IPv6_networks_trust_no_request _ (scenario.request "10.1.2.3:443" "/v6")).
    repeat constructor.
Defined.

(** X12. For a peer address made of the dotted text of an IPv4 address,
    alone or followed by a colon and anything, the source address of the
    wrapper is that address, and its text in the line for the log is the
    text the peer address began with. *)
Theorem srcIP_IPv4_peer
  (b0 b1 b2 b3 : Z) (rest : string) (r : Request)
  (H0 : inByte b0) (H1 : inByte b1) (H2 : inByte b2) (H3 : inByte b3)
  (Hrest : rest = EmptyString \/ strings.startsWith ":" rest = true)
  (Haddr : RemoteAddr r = IP_String (IPv4 b0 b1 b2 b3) +:+ rest) :
  srcIP r = IPv4 b0 b1 b2 b3
  /\ RemoteAddr r = IP_String (srcIP r) +:+ rest.
Proof.
  assert (srcIP r = IPv4 b0 b1 b2 b3) as Hsrc.
  { unfold srcIP. rewrite Haddr.
    rewrite first_Split_append by (auto using IP_String_IPv4_no_colon).
    rewrite ParseIP_no_colon by (auto using IP_String_IPv4_no_colon).
    rewrite IP_String_IPv4_dot. now apply parseIPv4_IP_String. }
  split; [exact Hsrc|]. now rewrite Hsrc.
Qed.

Lemma srcIP_IPv4_peer_witness :
  srcIP (scenario.request "203.0.113.5:40000" "/hello") = IPv4 203 0 113 5.
Proof.
  apply (srcIP_IPv4_peer 203 0 113 5 ":40000"
           (scenario.request "203.0.113.5:40000" "/hello"));
    try (unfold inByte; lia).
  - right. reflexivity.
  - reflexivity.
Defined.

(** X13. When the text of the peer address before its first colon has no
    dot (an empty peer address, a host name, a path of a socket), the
    source address is nil: the request is authorized exactly when
    [FailOpen] is on, and the line for the log of a rejection has the
    placeholder of the nil address. *)
Theorem srcIP_no_dot
  (fw : Firewall) (h : HandlerFunc) (w : ResponseWriter) (r : Request)
  (Hnodot : strings.Contains "." (strings.first (strings.Split (RemoteAddr r) ":")) = false) :
  srcIP r = None
  /\ authorized fw (Path (Request_URL r)) (srcIP r) = FailOpen (Firewall_Rules fw)
  /\ Wrap fw h w r
     = if FailOpen (Firewall_Rules fw) then h w r
       else [ log_Println ("[FIREWALL] blocked request from <nil> for "
                           +:+ Path (Request_URL r));
              http_Error w "Forbidden" 403 ].
Proof.
  assert (srcIP r = None) as Hnil.
  { unfold srcIP. rewrite ParseIP_no_colon by apply first_Split_no_sep.
    now rewrite Hnodot. }
  split; [exact Hnil|]. split.
  - rewrite Hnil. apply authorized_absent.
  - unfold Wrap. rewrite Hnil, authorized_absent.
    now destruct (FailOpen (Firewall_Rules fw)).
Qed.

Lemma srcIP_no_dot_witness :
  srcIP (scenario.request "localhost:8080" "/hello") = None
  /\ Wrap scenario.failClosed scenario.helloWorldHandler scenario.w0
          (scenario.request "" "/hello")
     = [ log_Println "[FIREWALL] blocked request from <nil> for /hello";
         http_Error scenario.w0 "Forbidden" 403 ].
Proof.
  split.
  - apply (srcIP_no_dot New (fun _ _ => []) scenario.w0
             (scenario.request "localhost:8080" "/hello")).
    reflexivity.
  - apply (srcIP_no_dot scenario.failClosed scenario.helloWorldHandler scenario.w0
             (scenario.request "" "/hello")).
    reflexivity.
Defined.

Section OwnAddress.

Lemma CIDRMask_loop_length l n : length (CIDRMask_loop l n) = l.
Proof.
  revert n. induction l as [|l IH]; intros n; simpl; [reflexivity|].
  destruct (n >=? 8); simpl; now rewrite IH.
Qed.

Lemma CIDRMask_length ones bits :
  CIDRMask ones bits = [] \/ length (CIDRMask ones bits) = Z.to_nat (bits / 8).
Proof.
  unfold CIDRMask.
  destruct (negb (bits =? 8 * Z.of_nat IPv4len) && negb (bits =? 8 * Z.of_nat IPv6len));
    [now left|].
  destruct ((ones <? 0) || (ones >? bits)); [now left|].
  right. apply CIDRMask_loop_length.
Qed.

Lemma Mask_IPv4 (b0 b1 b2 b3 m0 m1 m2 m3 : Z) :
  Mask (IPv4 b0 b1 b2 b3) [m0; m1; m2; m3]
  = Some [Z.land b0 m0; Z.land b1 m1; Z.land b2 m2; Z.land b3 m3].
Proof. reflexivity. Qed.

Lemma land_land (a m : Z) : Z.land (Z.land a m) m = Z.land a m.
Proof. now rewrite <- Z.land_assoc, Z.land_diag. Qed.

(** An IPv4 network read from text contains the address it was written
    with. *)
Lemma ParseCIDR_IPv4_contains (s : string) (ip : IP) (net : IPNet) :
  ParseCIDR s = inr (ip, net) ->
  length (IPNet_Mask net) = IPv4len ->
  is_Some ip /\ Contains net ip = true.
Proof.
  unfold ParseCIDR.
  destruct (cut s "/") as [[addr mask]|]; [|discriminate].
  destruct (dtoi mask) as [[n i] ok].
  destruct (parseIPv4_shape addr) as [E4|(b0 & b1 & b2 & b3 & E4)]; rewrite E4.
  - (* the address is not dotted: the mask has 16 bytes *)
    destruct (parseIPv6 addr) as [b|]; [|discriminate].
    destruct (negb ok || negb (Nat.eqb i (String.length mask)) || (n <? 0)
              || (n >? 8 * Z.of_nat IPv6len)); [discriminate|].
    intros H. inversion H; subst. cbn [IPNet_Mask]. intros Hlen.
    destruct (CIDRMask_length n (8 * Z.of_nat IPv6len)) as [E|E];
      rewrite E in Hlen; discriminate Hlen.
  - cbn [IPv4 fst snd].
    destruct (negb ok || negb (Nat.eqb i (String.length mask)) || (n <? 0)
              || (n >? 8 * Z.of_nat IPv4len)); [discriminate|].
    intros H. inversion H; subst. cbn [IPNet_Mask]. intros Hlen.
    destruct (CIDRMask n (8 * Z.of_nat IPv4len)) as [|m0 [|m1 [|m2 [|m3 [|]]]]];
      try discriminate Hlen.
    split; [eexists; reflexivity|].
    change (Mask _ [m0; m1; m2; m3]) with (Mask (IPv4 b0 b1 b2 b3) [m0; m1; m2; m3]).
    rewrite Mask_IPv4. unfold Contains. cbn.
    rewrite !land_land, !Z.eqb_refl. reflexivity.
Qed.

End OwnAddress.

(** X14. After a registration that succeeds with a list that holds an IPv4
    CIDR, every request for the path whose source address is the address
    written in that CIDR is handed to the inner handler. *)
Theorem own_address_admitted
  (fw fw' : Firewall) (path cidr : string) (networks : list string)
  (ip : IP) (net : IPNet) (h : HandlerFunc) (w : ResponseWriter) (r : Request)
  (Hadd : AddPathRule fw path networks = (fw', returns None))
  (Hin : In cidr networks)
  (Hcidr : ParseCIDR cidr = inr (ip, net))
  (Hv4 : length (IPNet_Mask net) = IPv4len)
  (Hpath : Path (Request_URL r) = path)
  (Hsrc : srcIP r = ip) :
  authorized fw' path ip = true
  /\ Wrap fw' h w r = h w r.
Proof.
  destruct (AddPathRule_success _ _ _ _ Hadd) as (g & trusted & Hg & Hfree & Hp & ->).
  destruct (parseNetworks_inr _ _ _ Hp) as (parsed & Heq & HF).
  simpl in Heq. subst parsed.
  assert (In net trusted) as Hnet.
  { clear Hp Hadd. induction HF as [|s n l l' [ip' Hs] _ IH]; [contradiction|].
    destruct Hin as [->|Hin]; [left; congruence|right; auto]. }
  assert (IPIsTrusted trusted ip = true) as Htrust.
  { destruct (ParseCIDR_IPv4_contains _ _ _ Hcidr Hv4) as [[b ->] Hc]. simpl.
    rewrite IPIsTrusted_loop_existsb. apply existsb_exists. eauto. }
  assert (authorized (mkFirewall (mkRules (Some (<[path := trusted]> g))
                                          (FailOpen (Firewall_Rules fw))) (Log fw))
            path ip = true) as Hauth.
  { rewrite (authorized_configured _ path ip trusted).
    - now rewrite Htrust.
    - rewrite entry_mkFirewall. apply lookup_insert_eq. }
  split; [exact Hauth|].
  apply Wrap_authorized. now rewrite Hpath, Hsrc.
Qed.

Lemma own_address_admitted_witness :
  Wrap (fst (AddPathRule (NewFirewall (Some scenario.noRules) false false) "/hello"
               ["192.168.0.0/16"; "10.1.2.3/8"]))
       scenario.helloWorldHandler scenario.w0
       (scenario.request "10.1.2.3:40000" "/hello")
  = [WriteHeader scenario.w0 200; Write scenario.w0 "Hello World!"].
Proof.
  apply (own_address_admitted
           (NewFirewall (Some scenario.noRules) false false)
           (fst (AddPathRule (NewFirewall (Some scenario.noRules) false false) "/hello"
                   ["192.168.0.0/16"; "10.1.2.3/8"]))
           "/hello" "10.1.2.3/8" ["192.168.0.0/16"; "10.1.2.3/8"]
           (IPv4 10 1 2 3) scenario.net10
           scenario.helloWorldHandler scenario.w0
           (scenario.request "10.1.2.3:40000" "/hello")).
  - vm_compute. reflexivity.
  - right. now left.
  - vm_compute. reflexivity.
  - reflexivity.
  - reflexivity.
  - vm_compute. reflexivity.
Defined.

(** X15. Registering the empty list for a path, on a firewall whose map is
    not nil, succeeds and closes the path for good while [FailOpen] is off:
    every request for it is rejected, and no later call can give it
    networks. *)
Theorem AddPathRule_empty_list
  (fw : Firewall) (g : gmap string (list IPNet)) (path : string)
  (Hmap : PathToNetblocks (Firewall_Rules fw) = Some g)
  (Hfree : g !! path = None)
  (Hclosed : FailOpen (Firewall_Rules fw) = false) :
  exists fw',
    AddPathRule fw path [] = (fw', returns None)
    /\ entry fw' path = Some []
    /\ (forall h w r, Path (Request_URL r) = path -> Wrap fw' h w r = rejection w r)
    /\ (forall networks,
          AddPathRule fw' path networks = (fw', returns (Some ErrPathHasRule))).
Proof.
  assert (entry fw path = None) as He by (unfold entry; now rewrite Hmap).
  eexists. split.
  { rewrite (AddPathRule_parsed fw path [] [] He eq_refl), Hmap. reflexivity. }
  assert (entry (mkFirewall (mkRules (Some (<[path := []]> g))
                                     (FailOpen (Firewall_Rules fw))) (Log fw)) path
          = Some []) as He'.
  { rewrite entry_mkFirewall. apply lookup_insert_eq. }
  split; [exact He'|]. split.
  - intros h w r Hpath. apply Wrap_denied. rewrite Hpath.
    rewrite (authorized_failClosed
               (mkFirewall (mkRules (Some (<[path := []]> g))
                                    (FailOpen (Firewall_Rules fw))) (Log fw))
               _ _ [] Hclosed He').
    apply IPIsTrusted_nil.
  - intros networks. now apply (AddPathRule_has_rule _ _ _ []).
Qed.

Lemma AddPathRule_empty_list_witness :
  exists fw',
    AddPathRule scenario.failClosed "/admin" [] = (fw', returns None)
    /\ entry fw' "/admin" = Some [].
Proof.
  destruct (AddPathRule_empty_list scenario.failClosed scenario.helloRules "/admin")
    as (fw' & H1 & H2 & _).
  - reflexivity.
  - vm_compute. reflexivity.
  - reflexivity.
  - exists fw'. auto.
Defined.

(** X16. What follows the first colon of the peer address plays no part:
    two requests whose peer addresses have the same text before it have the
    same source address, that of this text, and for the same path the same
    decision. *)
Theorem srcIP_ignores_port
  (host port port' : string) (r r' : Request)
  (Hhost : strings.Contains ":" host = false)
  (Hr : RemoteAddr r = host +:+ String ":" port)
  (Hr' : RemoteAddr r' = host +:+ String ":" port') :
  srcIP r = ParseIP host
  /\ srcIP r' = srcIP r
  /\ forall fw path, authorized fw path (srcIP r') = authorized fw path (srcIP r).
Proof.
  assert (forall x p, RemoteAddr x = host +:+ String ":" p -> srcIP x = ParseIP host) as H.
  { intros x p Hx. unfold srcIP. rewrite Hx.
    rewrite first_Split_append; [reflexivity|exact Hhost|]. right. reflexivity. }
  rewrite (H r port Hr), (H r' port' Hr'). auto.
Qed.

Lemma srcIP_ignores_port_witness :
  srcIP (scenario.request "10.1.2.3:80" "/hello")
  = srcIP (scenario.request "10.1.2.3:40000:x" "/hello").
Proof.
  apply (srcIP_ignores_port "10.1.2.3" "40000:x" "80"
           (scenario.request "10.1.2.3:40000:x" "/hello")
           (scenario.request "10.1.2.3:80" "/hello")); reflexivity.
Defined.
